(** * Course catalog service (app.py): validator and record store

    A shallow embedding of the four utility functions of app.py
    ([load_courses], [save_courses], [validate_course],
    [delete_course_by_code]) and of the [add_course] request handler,
    followed by the properties of the specification that concern them.

    What is modelled and what is not:
    - Python values are the values [json.load] can produce: [None], booleans,
      integers, strings, lists and string-keyed dictionaries.  A JSON number
      with a fractional part would be a float; in every operation below a
      float behaves as an integer does (it has no [strip], no [len], it is
      not subscriptable), so numbers are represented by [VInt].
    - A [str] is a sequence of Unicode code points.
    - A [dict] is an association list in insertion order; Python keeps keys
      unique ([Dict.wf]).
    - Exceptions are explicit: every function that can raise returns a
      [result].
    - The tracing spans, the timers and the log lines are write-only side
      channels: they never feed back into a return value or into the
      catalog file, and they are left out. *)

From Stdlib Require Import List NArith ZArith Bool String Ascii Lia.
From Stdlib Require Import Permutation.
Import ListNotations.

(** ** Strings *)

Module PyStr.

(** A Python [str]: its code points. *)
Definition pystr := list N.

(** A literal of the source, from its ASCII spelling. *)
Definition str (s : string) : pystr :=
  map N_of_ascii (list_ascii_of_string s).

Fixpoint eqb (a b : pystr) : bool :=
  match a, b with
  | [], [] => true
  | x :: a', y :: b' => N.eqb x y && eqb a' b'
  | _, _ => false
  end.

(** The characters [str.strip()] removes when called without argument:
    those for which [str.isspace] holds. *)
Definition isspace (c : N) : bool :=
  ((9 <=? c) && (c <=? 13) ||
   (28 <=? c) && (c <=? 32) ||
   (c =? 133) || (c =? 160) || (c =? 5760) ||
   (8192 <=? c) && (c <=? 8202) ||
   (c =? 8232) || (c =? 8233) || (c =? 8239) || (c =? 8287) ||
   (c =? 12288))%N.

Fixpoint lstrip (s : pystr) : pystr :=
  match s with
  | [] => []
  | c :: s' => if isspace c then lstrip s' else s
  end.

Definition rstrip (s : pystr) : pystr := rev (lstrip (rev s)).

(** [s.strip()] *)
Definition strip (s : pystr) : pystr := rstrip (lstrip s).

(** [sep.join(parts)] *)
Fixpoint join (sep : pystr) (parts : list pystr) : pystr :=
  match parts with
  | [] => []
  | p :: rest =>
      match rest with
      | [] => p
      | _ :: _ => p ++ sep ++ join sep rest
      end
  end.

Definition upper_char (c : N) : N :=
  if ((97 <=? c) && (c <=? 122))%N then (c - 32)%N else c.

Definition lower_char (c : N) : N :=
  if ((65 <=? c) && (c <=? 90))%N then (c + 32)%N else c.

(** [s.capitalize()]: first character upper-cased, the rest lower-cased.
    The source applies it to the three ASCII names of [required_fields]
    only, so the case mapping is given on ASCII letters. *)
Definition capitalize (s : pystr) : pystr :=
  match s with
  | [] => []
  | c :: s' => upper_char c :: map lower_char s'
  end.

(** Whitespace-only (or empty): what makes [s.strip()] falsy. *)
Definition blank (s : pystr) : bool := forallb isspace s.

End PyStr.
Import PyStr.

(** ** Values, dictionaries, exceptions *)

#[warnings="-register-all"]
Inductive pyval : Type :=
| VNone
| VBool (b : bool)
| VInt (z : Z)
| VStr (s : pystr)
| VList (l : list pyval)
| VDict (d : list (pystr * pyval)).

Definition dict := list (pystr * pyval).

Inductive exn : Type :=
| AttributeError
| TypeError
| KeyError
| JSONDecodeError
| FileNotFoundError
| BadRequestKeyError.

Inductive result (A : Type) : Type :=
| Ok (a : A)
| Raise (e : exn).
Arguments Ok {A} a.
Arguments Raise {A} e.

Definition rbind {A B} (r : result A) (k : A -> result B) : result B :=
  match r with
  | Ok a => k a
  | Raise e => Raise e
  end.

Declare Scope py_scope.
Delimit Scope py_scope with py.
Notation "x <- c ;; k" := (rbind c (fun x => k))
  (at level 61, c at next level, right associativity) : py_scope.
Open Scope py_scope.

(** Python truthiness, as tested by [if v:] and [not v]. *)
Definition truthy (v : pyval) : bool :=
  match v with
  | VNone => false
  | VBool b => b
  | VInt z => negb (Z.eqb z 0)
  | VStr s => match s with [] => false | _ => true end
  | VList l => match l with [] => false | _ => true end
  | VDict d => match d with [] => false | _ => true end
  end.

Module Dict.

(** [d.get(k)]: [None] of Rocq stands for "key absent". *)
Fixpoint get (d : dict) (k : pystr) : option pyval :=
  match d with
  | [] => None
  | (k', v) :: d' => if PyStr.eqb k' k then Some v else get d' k
  end.

(** [d.get(k, default)] *)
Definition get_default (d : dict) (k : pystr) (default : pyval) : pyval :=
  match get d k with
  | Some v => v
  | None => default
  end.

(** [for k in d]: the keys, in insertion order. *)
Definition keys (d : dict) : list pystr := map fst d.

(** Keys of a Python dict are unique. *)
Definition wf (d : dict) : Prop := NoDup (keys d).

End Dict.

(** A list comprehension [[x for x in l if p(x)]] whose condition may
    raise: elements are tested from left to right and the first exception
    ends the evaluation. *)
Fixpoint filterM {A} (p : A -> result bool) (l : list A) : result (list A) :=
  match l with
  | [] => Ok []
  | x :: l' =>
      b <- p x ;;
      rest <- filterM p l' ;;
      Ok (if b then x :: rest else rest)
  end.

(** [if l:] for a list [l]. *)
Definition truthy_list {A} (l : list A) : bool :=
  match l with [] => false | _ => true end.

(** ** validate_course *)

Definition required_fields : list pystr :=
  [str "code"; str "name"; str "instructor"].

(** [v.strip()]: only a [str] has the method. *)
Definition py_strip (v : pyval) : result pystr :=
  match v with
  | VStr s => Ok (strip s)
  | _ => Raise AttributeError
  end.

(** The condition of both comprehensions:
    [not data.get(field, "").strip()]. *)
Definition field_is_empty (data : dict) (field : pystr) : result bool :=
  s <- py_strip (Dict.get_default data field (VStr [])) ;;
  Ok (negb (truthy (VStr s))).

Definition error_message (empty_fields : list pystr) : pystr :=
  str "Error: Missing required fields - " ++ join (str ", ") empty_fields.

Definition warning_message (warning_fields : list pystr) : pystr :=
  str "Warning: Fields " ++ join (str ", ") warning_fields ++ str " are empty".

(** The function returns a pair whose first component is [False],
    the string ["warning"] or [True]. *)
Definition validate_course (data : dict) : result (pyval * pystr) :=
  empty_fields <- filterM (field_is_empty data) required_fields ;;
  if truthy_list empty_fields then
    Ok (VBool false, error_message empty_fields)
  else
    warning_fields <- filterM (field_is_empty data) (Dict.keys data) ;;
    if truthy_list warning_fields then
      Ok (VStr (str "warning"), warning_message warning_fields)
    else
      Ok (VBool true, str "Validation successful").

(** ** The catalog file

    [COURSE_FILE] is the only file the four functions touch.  [json.load]
    and [json.dump] are library functions, not code of the application: a
    content of the file is represented by what [json.load] makes of it, and
    [json.dump] writes the text that loads back to the value it was given
    (the values of [pyval] are the ones for which the library does so). *)

Inductive file_content : Type :=
| EmptyFile           (* zero bytes: json.load raises "Expecting value" *)
| Garbled             (* any other text that is not a JSON document *)
| Json (v : pyval).   (* the text of the JSON document v *)

(** The state of [COURSE_FILE]: absent ([None]) or its content, together
    with a count of the times it has been opened for writing, which makes
    "the file is not rewritten" observable. *)
Record filesystem : Type := mkFs {
  course_file : option file_content;
  writes : nat
}.

Definition json_load (content : file_content) : result pyval :=
  match content with
  | Json v => Ok v
  | EmptyFile | Garbled => Raise JSONDecodeError
  end.

Definition json_dump (v : pyval) : file_content := Json v.

(** Code that reads and rewrites the file and may raise: the file system is
    threaded through, and an exception leaves it as it was when raised. *)
Definition io (A : Type) : Type := filesystem -> result A * filesystem.

Definition io_ret {A} (a : A) : io A := fun fs => (Ok a, fs).

Definition io_bind {A B} (m : io A) (k : A -> io B) : io B :=
  fun fs =>
    match m fs with
    | (Ok a, fs') => k a fs'
    | (Raise e, fs') => (Raise e, fs')
    end.

Definition lift {A} (r : result A) : io A := fun fs => (r, fs).

Notation "x <~ c ;; k" := (io_bind c (fun x => k))
  (at level 61, c at next level, right associativity) : py_scope.

(** [os.path.exists(COURSE_FILE)] *)
Definition path_exists : io bool :=
  fun fs =>
    (Ok (match course_file fs with Some _ => true | None => false end), fs).

(** [with open(COURSE_FILE, 'r') as file: json.load(file)] *)
Definition read_json : io pyval :=
  fun fs =>
    match course_file fs with
    | Some content => (json_load content, fs)
    | None => (Raise FileNotFoundError, fs)
    end.

(** [with open(COURSE_FILE, 'w') as file: json.dump(v, file, indent=4)] *)
Definition write_json (v : pyval) : io unit :=
  fun fs =>
    (Ok tt, {| course_file := Some (json_dump v); writes := S (writes fs) |}).

(** [len(v)] *)
Definition py_len (v : pyval) : result nat :=
  match v with
  | VStr s => Ok (List.length s)
  | VList l => Ok (List.length l)
  | VDict d => Ok (List.length d)
  | VNone | VBool _ | VInt _ => Raise TypeError
  end.

(** [load_courses()]; [len(courses)] is evaluated for the span attribute. *)
Definition load_courses : io pyval :=
  file_exists <~ path_exists ;;
  if negb file_exists then io_ret (VList [])
  else
    courses <~ read_json ;;
    _ <~ lift (py_len courses) ;;
    io_ret courses.

(** [courses.append(data)]: only a list has the method. *)
Definition py_append (courses data : pyval) : result pyval :=
  match courses with
  | VList l => Ok (VList (l ++ [data]))
  | _ => Raise AttributeError
  end.

Definition save_courses (data : pyval) : io unit :=
  courses <~ load_courses ;;
  courses <~ lift (py_append courses data) ;;
  write_json courses.

(** [c[k]] for a string [k]. *)
Definition getitem (c : pyval) (k : pystr) : result pyval :=
  match c with
  | VDict d =>
      match Dict.get d k with
      | Some v => Ok v
      | None => Raise KeyError
      end
  | _ => Raise TypeError
  end.

(** [v == code] where [code] is a [str]. *)
Definition eq_str (v : pyval) (code : pystr) : bool :=
  match v with
  | VStr s => PyStr.eqb s code
  | _ => false
  end.

(** [for c in v] *)
Definition py_iter (v : pyval) : result (list pyval) :=
  match v with
  | VList l => Ok l
  | VDict d => Ok (map VStr (Dict.keys d))
  | VStr s => Ok (map (fun c => VStr [c]) s)
  | VNone | VBool _ | VInt _ => Raise TypeError
  end.

(** [next((c for c in items if p(c)), None)]: the generator is consumed
    up to its first hit only. *)
Fixpoint next_or_none (p : pyval -> result bool) (items : list pyval)
  : result pyval :=
  match items with
  | [] => Ok VNone
  | c :: rest =>
      b <- p c ;;
      if b then Ok c else next_or_none p rest
  end.

(** [c['code'] == code] and [c['code'] != code] *)
Definition code_is (code : pystr) (c : pyval) : result bool :=
  v <- getitem c (str "code") ;; Ok (eq_str v code).

Definition code_is_not (code : pystr) (c : pyval) : result bool :=
  v <- getitem c (str "code") ;; Ok (negb (eq_str v code)).

Definition delete_course_by_code (code : pystr) : io bool :=
  courses <~ load_courses ;;
  items <~ lift (py_iter courses) ;;
  course_to_delete <~ lift (next_or_none (code_is code) items) ;;
  if truthy course_to_delete then
    courses <~ lift (filterM (code_is_not code) items) ;;
    _ <~ write_json (VList courses) ;;
    io_ret true
  else
    io_ret false.

(** ** add_course *)

Inductive http_method : Type := GET | POST.

(** [request.form]: the submitted form, field name to text. *)
Definition form := list (pystr * pystr).

(** [request.form[k]]: a field the form lacks raises [BadRequestKeyError]. *)
Fixpoint form_get (f : form) (k : pystr) : result pystr :=
  match f with
  | [] => Raise BadRequestKeyError
  | (k', v) :: f' => if PyStr.eqb k' k then Ok v else form_get f' k
  end.

Fixpoint mapM {A B} (g : A -> result B) (l : list A) : result (list B) :=
  match l with
  | [] => Ok []
  | x :: l' =>
      y <- g x ;;
      rest <- mapM g l' ;;
      Ok (y :: rest)
  end.

(** The keys of the dict literal that builds [course], in its order. *)
Definition course_fields : list pystr :=
  [str "code"; str "name"; str "instructor"; str "semester"; str "schedule";
   str "classroom"; str "prerequisites"; str "grading"; str "description"].

Definition course_of_form (f : form) : result dict :=
  mapM (fun k => v <- form_get f k ;; Ok (k, VStr v)) course_fields.

(** The four counters [add_course] keeps in the session; a counter the
    session does not hold yet is initialised to 0 by the handler, so an
    absent counter and a counter at 0 are not told apart. *)
Record session : Type := mkSession {
  missing_field_errors : nat;
  validation_errors : nat;
  database_errors : nat;
  added_courses_count : nat
}.

Inductive response : Type :=
| RenderAddCourse (course : option dict)   (* render_template('add_course.html', ...) *)
| RedirectCatalog.                         (* redirect(url_for('course_catalog')) *)

Record app_state : Type := mkApp {
  files : filesystem;
  sess : session;
  flashed : list (pystr * pystr)           (* flash(message, category) *)
}.

Definition flash (message category : pystr) (st : app_state) : app_state :=
  {| files := files st; sess := sess st;
     flashed := flashed st ++ [(message, category)] |}.

Definition with_session (s : session) (st : app_state) : app_state :=
  {| files := files st; sess := s; flashed := flashed st |}.

Definition with_files (fs : filesystem) (st : app_state) : app_state :=
  {| files := fs; sess := sess st; flashed := flashed st |}.

(** The condition of the handler's own check:
    [not course.get(field).strip()]. *)
Definition form_field_is_empty (course : dict) (field : pystr) : result bool :=
  s <- py_strip (Dict.get_default course field VNone) ;;
  Ok (negb (truthy (VStr s))).

Definition add_course (method : http_method) (f : form) (st : app_state)
  : result response * app_state :=
  match method with
  | GET => (Ok (RenderAddCourse None), st)
  | POST =>
    match course_of_form f with
    | Raise e => (Raise e, st)
    | Ok course =>
      match filterM (form_field_is_empty course) required_fields with
      | Raise e => (Raise e, st)
      | Ok missing =>
        let empty_fields := map capitalize missing in
        if truthy_list empty_fields then
          let fields := join (str ", ") empty_fields in
          let st := flash (str "The following fields are required and cannot be empty: "
                           ++ fields ++ str ".") (str "error") st in
          let s := sess st in
          let st := with_session
                      {| missing_field_errors := S (missing_field_errors s);
                         validation_errors := validation_errors s;
                         database_errors := database_errors s;
                         added_courses_count := added_courses_count s |} st in
          (Ok (RenderAddCourse (Some course)), st)
        else
          match validate_course course with
          | Raise e => (Raise e, st)
          | Ok (valid, message) =>
            if negb (truthy valid) then
              let s := sess st in
              let st := with_session
                          {| missing_field_errors := missing_field_errors s;
                             validation_errors := S (validation_errors s);
                             database_errors := database_errors s;
                             added_courses_count := added_courses_count s |} st in
              let st := flash (str "Validation error: " ++ message) (str "error") st in
              (Ok (RenderAddCourse (Some course)), st)
            else
              match save_courses (VDict course) (files st) with
              | (Ok _, fs') =>
                  let s := sess st in
                  let st := with_files fs' st in
                  let st := with_session
                              {| missing_field_errors := missing_field_errors s;
                                 validation_errors := validation_errors s;
                                 database_errors := database_errors s;
                                 added_courses_count := S (added_courses_count s) |} st in
                  let st := flash (str "Course added successfully") (str "success") st in
                  (Ok RedirectCatalog, st)
              | (Raise _, fs') =>
                  let s := sess st in
                  let st := with_files fs' st in
                  let st := with_session
                              {| missing_field_errors := missing_field_errors s;
                                 validation_errors := validation_errors s;
                                 database_errors := S (database_errors s);
                                 added_courses_count := added_courses_count s |} st in
                  let st := flash (str "Failed to save course") (str "error") st in
                  (Ok (RenderAddCourse (Some course)), st)
              end
          end
      end
    end
  end.

(** ** The other request handlers

    [index], [course_catalog], [course_details] and [delete_course].  The
    templates are not part of the sources: a rendered page is represented
    by the template and the arguments it is rendered with. *)

(** The session of the browser: the four counters of [add_course] and the
    counter [course_catalog] keeps (absent and 0 are not told apart, as
    for the others). *)
Record site_state : Type := mkSite {
  app : app_state;
  catalog_page_access_count : nat
}.

Inductive view : Type :=
| RenderIndex                               (* render_template('index.html') *)
| RenderCourseCatalog (courses : pyval)     (* 'course_catalog.html', courses=courses *)
| RenderCourseDetails (course : pyval)      (* 'course_details.html', course=course *)
| RedirectCourseCatalog                     (* redirect(url_for('course_catalog')) *)
| AddCourseResponse (r : response).         (* what add_course answers *)

Definition with_app (a : app_state) (st : site_state) : site_state :=
  {| app := a; catalog_page_access_count := catalog_page_access_count st |}.

Definition index (st : site_state) : result view * site_state :=
  (Ok RenderIndex, st).

(** The counter is stored in the session before the catalog is loaded. *)
Definition course_catalog (st : site_state) : result view * site_state :=
  let st := {| app := app st;
               catalog_page_access_count := S (catalog_page_access_count st) |} in
  match load_courses (files (app st)) with
  | (Ok courses, fs') =>
      (Ok (RenderCourseCatalog courses), with_app (with_files fs' (app st)) st)
  | (Raise e, fs') => (Raise e, with_app (with_files fs' (app st)) st)
  end.

(** [course is None] holds for the default of [next] only: an element of
    the catalog that is [None] makes [c['code']] raise before it can be
    returned. *)
Definition course_details (code : pystr) (st : site_state)
  : result view * site_state :=
  match (courses <~ load_courses ;;
         items <~ lift (py_iter courses) ;;
         lift (next_or_none (code_is code) items)) (files (app st)) with
  | (Ok course, fs') =>
      let st := with_app (with_files fs' (app st)) st in
      match course with
      | VNone => (Ok RedirectCourseCatalog, st)
      | _ => (Ok (RenderCourseDetails course), st)
      end
  | (Raise e, fs') => (Raise e, with_app (with_files fs' (app st)) st)
  end.

Definition deleted_message (code : pystr) : pystr :=
  str "Course with code " ++ code ++ str " deleted successfully.".

Definition not_found_message (code : pystr) : pystr :=
  str "Course with code " ++ code ++ str " not found.".

Definition delete_course (code : pystr) (st : site_state)
  : result view * site_state :=
  match delete_course_by_code code (files (app st)) with
  | (Ok success, fs') =>
      let a := with_files fs' (app st) in
      let a := if success
               then flash (deleted_message code) (str "success") a
               else flash (not_found_message code) (str "danger") a in
      (Ok RedirectCourseCatalog, with_app a st)
  | (Raise e, fs') => (Raise e, with_app (with_files fs' (app st)) st)
  end.

(** The routes of the application with the methods they accept. *)
Inductive request : Type :=
| Index                                        (* GET / *)
| AddCourse (method : http_method) (f : form)  (* GET|POST /add_course *)
| CourseCatalog (method : http_method)         (* GET|POST /catalog *)
| CourseDetails (code : pystr)                 (* GET /course/<code> *)
| DeleteCourse (code : pystr).                 (* POST /delete_course/<code> *)

Definition handle (rq : request) (st : site_state) : result view * site_state :=
  match rq with
  | Index => index st
  | AddCourse method f =>
      match add_course method f (app st) with
      | (Ok r, a) => (Ok (AddCourseResponse r), with_app a st)
      | (Raise e, a) => (Raise e, with_app a st)
      end
  | CourseCatalog _ => course_catalog st
  | CourseDetails code => course_details code st
  | DeleteCourse code => delete_course code st
  end.

(** The requests of a list served one after the other.  A request whose
    handler raises is answered with an error page and the service goes
    on; the state is taken as the handler left it. *)
Fixpoint serve (rqs : list request) (st : site_state) : site_state :=
  match rqs with
  | [] => st
  | rq :: rest => serve rest (snd (handle rq st))
  end.

(** ** Vocabulary of the specification *)

Definition is_str (v : pyval) : bool :=
  match v with VStr _ => true | _ => false end.

(** Every field of the record holds a string. *)
Definition all_str (d : dict) : Prop :=
  Forall (fun kv => is_str (snd kv) = true) d.

(** The record was submitted with field [k], and its text is empty or
    whitespace-only after trimming. *)
Definition empty_field (d : dict) (k : pystr) : Prop :=
  exists s, Dict.get d k = Some (VStr s) /\ strip s = [].

Definition empty_fieldb (d : dict) (k : pystr) : bool :=
  match Dict.get d k with
  | Some (VStr s) => blank s
  | _ => false
  end.

(** The record has field [k], and its text is not empty after trimming. *)
Definition nonempty_field (d : dict) (k : pystr) : Prop :=
  exists s, Dict.get d k = Some (VStr s) /\ strip s <> [].

(** Field [k] is missing: absent from the record, or empty after trimming. *)
Definition missing_field (d : dict) (k : pystr) : Prop :=
  Dict.get d k = None \/ empty_field d k.

Definition missing_fieldb (d : dict) (k : pystr) : bool :=
  match Dict.get d k with
  | None => true
  | Some (VStr s) => blank s
  | Some _ => false
  end.

(** Field [k] is absent or holds a string. *)
Definition str_or_absent (d : dict) (k : pystr) : Prop :=
  forall v, Dict.get d k = Some v -> is_str v = true.

(** The record maps field [k] to a value that is not a string. *)
Definition non_str_field (d : dict) (k : pystr) : Prop :=
  exists v, Dict.get d k = Some v /\ is_str v = false.

(** The catalog: [load_courses] returns the list [cs] (and, as always,
    leaves the file as it is). *)
Definition catalog (fs : filesystem) (cs : list pyval) : Prop :=
  load_courses fs = (Ok (VList cs), fs).

(** A stored record is a JSON object. *)
Definition is_dict (c : pyval) : Prop := exists d, c = VDict d.

(** A stored record that has a ['code'] key, and one that lacks it. *)
Definition has_code_key (c : pyval) : Prop :=
  exists d v, c = VDict d /\ Dict.get d (str "code") = Some v.

Definition lacks_code_key (c : pyval) : Prop :=
  exists d, c = VDict d /\ Dict.get d (str "code") = None.

(** The record's code is [code]. *)
Definition has_code (code : pystr) (c : pyval) : bool :=
  match c with
  | VDict d =>
      match Dict.get d (str "code") with
      | Some v => eq_str v code
      | None => false
      end
  | _ => false
  end.

Definition other_code (code : pystr) (c : pyval) : bool := negb (has_code code c).

(** A record as [add_course] writes it: the nine fields of the form, all
    strings, with [code], [name] and [instructor] not blank. *)
Definition valid_course (c : pyval) : Prop :=
  exists d, c = VDict d /\ Dict.keys d = course_fields /\ all_str d /\
            forall f, In f required_fields -> nonempty_field d f.

(** The catalog file is absent, or holds a JSON array of such records. *)
Definition store_ok (fs : filesystem) : Prop :=
  course_file fs = None \/
  exists cs, course_file fs = Some (Json (VList cs)) /\ Forall valid_course cs.

(** The first record of the list with the code, as the details page
    finds it. *)
Definition first_with_code (code : pystr) (cs : list pyval) : option pyval :=
  find (has_code code) cs.

(** ** Sample records *)

Module Ex.

Definition cs101 : dict :=
  [(str "code", VStr (str "CS101")); (str "name", VStr (str "Algo"));
   (str "instructor", VStr (str "Dr. X"))].

(** [{code: "", name: "Algo", instructor: "Dr. X"}] *)
Definition no_code : dict :=
  [(str "code", VStr (str "")); (str "name", VStr (str "Algo"));
   (str "instructor", VStr (str "Dr. X"))].

(** [{code: "CS101", name: "Algo", instructor: "Dr. X", semester: ""}] *)
Definition empty_semester : dict :=
  cs101 ++ [(str "semester", VStr (str ""))].

(** A field no form of the application has, submitted as blanks. *)
Definition blank_room_capacity : dict :=
  cs101 ++ [(str "semester", VStr (str "Fall"));
            (str "room_capacity", VStr (str "   "))].

(** [{code: "", name: "Algo", instructor: "Dr. X", semester: None}] *)
Definition no_code_null_semester : dict :=
  no_code ++ [(str "semester", VNone)].

Definition cs102 : dict :=
  [(str "code", VStr (str "CS102")); (str "name", VStr (str "Logic"));
   (str "instructor", VStr (str "Dr. Y"))].

(** A stored object without a ['code'] key. *)
Definition codeless : dict := [(str "name", VStr (str "Logic"))].

(** No catalog file. *)
Definition absent : filesystem := mkFs None 0.

(** A catalog file of zero bytes. *)
Definition empty_file : filesystem := mkFs (Some EmptyFile) 0.

(** A catalog file holding [[]]. *)
Definition empty_array : filesystem := mkFs (Some (Json (VList []))) 0.

Definition two_courses : filesystem :=
  mkFs (Some (Json (VList [VDict cs101; VDict cs102]))) 0.

Definition with_codeless : filesystem :=
  mkFs (Some (Json (VList [VDict cs101; VDict codeless]))) 0.

(** The form of the add-course page, with its nine fields. *)
Definition filled_form (code semester : string) : form :=
  [(str "code", str code); (str "name", str "Algo");
   (str "instructor", str "Dr. X"); (str "semester", str semester);
   (str "schedule", str "Mon 10-12"); (str "classroom", str "A1");
   (str "prerequisites", str "none"); (str "grading", str "exam");
   (str "description", str "Algorithms")].

Definition filled_course (code semester : string) : dict :=
  map (fun kv => (fst kv, VStr (snd kv))) (filled_form code semester).

Definition fresh_session : session := mkSession 0 0 0 0.

Definition fresh_app : app_state := mkApp absent fresh_session [].

End Ex.

(** ** Sample states of the site *)

Module ExSite.

Definition site_of (fs : filesystem) : site_state :=
  mkSite (mkApp fs Ex.fresh_session []) 0.

(** A fresh installation: no catalog file, empty session. *)
Definition fresh : site_state := site_of Ex.absent.

(** Two records as the form writes them, the second with the code of the
    first. *)
Definition algo : pyval := VDict (Ex.filled_course "CS101" "Fall").
Definition algo_again : pyval := VDict (Ex.filled_course "CS101" "").
Definition logic : pyval := VDict (Ex.filled_course "CS102" "Fall").

Definition stored : filesystem :=
  mkFs (Some (Json (VList [algo; logic; algo_again]))) 3.

(** A catalog file holding a JSON object instead of an array. *)
Definition object_file : filesystem := mkFs (Some (Json (VDict []))) 0.

(** A form without its [description] field. *)
Definition short_form : form := removelast (Ex.filled_form "CS101" "Fall").

End ExSite.

(** * Properties *)

(** ** Strings and dictionaries *)

Lemma pystr_eqb_eq (a b : pystr) : PyStr.eqb a b = true <-> a = b.
Proof.
  revert b; induction a as [|x a IH]; intros [|y b]; simpl;
    try (split; [discriminate | discriminate]); try tauto.
  rewrite andb_true_iff, N.eqb_eq, IH.
  split; [intros [-> ->]; reflexivity | intros H; inversion H; auto].
Qed.

Lemma pystr_eqb_refl (a : pystr) : PyStr.eqb a a = true.
Proof. apply pystr_eqb_eq; reflexivity. Qed.

Lemma lstrip_nil_iff (s : pystr) : lstrip s = [] <-> blank s = true.
Proof.
  induction s as [|c s IH]; simpl; [tauto|].
  destruct (isspace c); simpl; [exact IH | split; discriminate].
Qed.

Lemma lstrip_blank_nil (s : pystr) : blank (lstrip s) = true -> lstrip s = [].
Proof.
  induction s as [|c s IH]; simpl; [reflexivity|].
  destruct (isspace c) eqn:E; [exact IH|].
  simpl; rewrite E; discriminate.
Qed.

Lemma blank_rev (s : pystr) : blank (rev s) = blank s.
Proof.
  unfold blank; induction s as [|c s IH]; simpl; [reflexivity|].
  rewrite forallb_app, IH; simpl.
  rewrite andb_true_r; apply andb_comm.
Qed.

Lemma rev_nil_iff {A} (l : list A) : rev l = [] <-> l = [].
Proof.
  split; [|intros ->; reflexivity].
  intros H; apply (f_equal (@rev A)) in H; rewrite rev_involutive in H; exact H.
Qed.

(** [s.strip()] is falsy exactly when [s] is empty or whitespace-only. *)
Lemma strip_nil_iff (s : pystr) : strip s = [] <-> blank s = true.
Proof.
  unfold strip, rstrip; split.
  - intros H; apply rev_nil_iff, lstrip_nil_iff in H.
    rewrite blank_rev in H.
    apply lstrip_nil_iff, lstrip_blank_nil, H.
  - intros H; apply lstrip_nil_iff in H; rewrite H; reflexivity.
Qed.

Lemma strip_falsy (s : pystr) : negb (truthy (VStr (strip s))) = blank s.
Proof.
  destruct (blank s) eqn:E.
  - apply strip_nil_iff in E; rewrite E; reflexivity.
  - destruct (strip s) eqn:S; [|reflexivity].
    apply strip_nil_iff in S; congruence.
Qed.

Lemma get_In (d : dict) k v : Dict.get d k = Some v -> In (k, v) d.
Proof.
  induction d as [|[k' v'] d IH]; simpl; [discriminate|].
  destruct (PyStr.eqb k' k) eqn:E.
  - apply pystr_eqb_eq in E; subst; intros [= ->]; left; reflexivity.
  - intros H; right; auto.
Qed.

Lemma get_keys (d : dict) k : In k (Dict.keys d) <-> exists v, Dict.get d k = Some v.
Proof.
  unfold Dict.keys; split.
  - induction d as [|[k' v'] d IH]; simpl; [tauto|].
    destruct (PyStr.eqb k' k) eqn:E; [eauto|].
    intros [->|H]; [rewrite pystr_eqb_refl in E; discriminate | auto].
  - intros [v H]; apply get_In in H.
    apply (in_map fst) in H; exact H.
Qed.

(** ** Comprehensions *)

Lemma filterM_pure {A} (p : A -> result bool) (q : A -> bool) (l : list A) :
  (forall x, In x l -> p x = Ok (q x)) -> filterM p l = Ok (filter q l).
Proof.
  induction l as [|x l IH]; intros H; simpl; [reflexivity|].
  rewrite (H x (or_introl eq_refl)); simpl.
  rewrite IH by (intros; apply H; right; assumption); reflexivity.
Qed.

Lemma filterM_raises {A} (p : A -> result bool) (l : list A) e :
  filterM p l = Raise e -> exists x, In x l /\ p x = Raise e.
Proof.
  induction l as [|x l IH]; simpl; [discriminate|].
  destruct (p x) as [b|e'] eqn:E; simpl.
  - destruct (filterM p l) as [r|e']; simpl; [discriminate|].
    intros [= ->]; destruct (IH eq_refl) as [y [Hy Hp]]; eauto.
  - intros [= ->]; eauto.
Qed.

Lemma filterM_raise_in {A} (p : A -> result bool) (l : list A) x e :
  In x l -> p x = Raise e -> exists e', filterM p l = Raise e'.
Proof.
  induction l as [|y l IH]; simpl; [tauto|].
  intros [->|Hin] Hp.
  - rewrite Hp; simpl; eauto.
  - destruct (p y); simpl; [|eauto].
    destruct (IH Hin Hp) as [e' ->]; simpl; eauto.
Qed.

Lemma filter_nil_iff {A} (q : A -> bool) (l : list A) :
  filter q l = [] <-> forall x, In x l -> q x = false.
Proof.
  induction l as [|x l IH]; simpl; [tauto|].
  destruct (q x) eqn:E.
  - split; [discriminate|].
    intros H; rewrite (H x (or_introl eq_refl)) in E; discriminate.
  - rewrite IH; split; [intros H y [<-|Hy]; auto | intros H y Hy; auto].
Qed.

Lemma truthy_list_false {A} (l : list A) : truthy_list l = false <-> l = [].
Proof. destruct l; simpl; split; congruence. Qed.

(** ** The two comprehensions of validate_course *)

Lemma all_str_get (d : dict) k v :
  all_str d -> Dict.get d k = Some v -> is_str v = true.
Proof.
  intros H G; apply get_In in G.
  unfold all_str in H; rewrite Forall_forall in H; exact (H _ G).
Qed.

Lemma all_str_or_absent (d : dict) k : all_str d -> str_or_absent d k.
Proof. intros H v G; exact (all_str_get d k v H G). Qed.

Lemma field_is_empty_str (d : dict) k :
  str_or_absent d k -> field_is_empty d k = Ok (missing_fieldb d k).
Proof.
  unfold str_or_absent, field_is_empty, missing_fieldb, Dict.get_default.
  intros H; destruct (Dict.get d k) as [v|]; [|reflexivity].
  specialize (H v eq_refl); destruct v; try discriminate.
  unfold py_strip, rbind; rewrite strip_falsy; reflexivity.
Qed.

Lemma field_is_empty_raises (d : dict) k e :
  field_is_empty d k = Raise e <-> non_str_field d k /\ e = AttributeError.
Proof.
  unfold field_is_empty, non_str_field, Dict.get_default; split.
  - destruct (Dict.get d k) as [v|]; [|discriminate].
    destruct v; simpl; try discriminate; intros [= <-]; eauto.
  - intros [[v [-> Hv]] ->]; destruct v; try discriminate; reflexivity.
Qed.

Lemma missing_fieldb_spec (d : dict) k :
  str_or_absent d k -> (missing_fieldb d k = true <-> missing_field d k).
Proof.
  unfold str_or_absent, missing_fieldb, missing_field, empty_field; intros H.
  destruct (Dict.get d k) as [v|]; [|tauto].
  specialize (H v eq_refl); destruct v; try discriminate.
  rewrite <- strip_nil_iff; split.
  - intros E; right; eauto.
  - intros [?|[s' [[= <-] E]]]; [discriminate | exact E].
Qed.

Lemma missing_fieldb_false (d : dict) k :
  str_or_absent d k -> (missing_fieldb d k = false <-> nonempty_field d k).
Proof.
  unfold str_or_absent, missing_fieldb, nonempty_field; intros H.
  destruct (Dict.get d k) as [v|].
  - specialize (H v eq_refl); destruct v; try discriminate.
    split.
    + intros E; exists s; split; [reflexivity|].
      intros S; apply strip_nil_iff in S; congruence.
    + intros [s' [[= <-] E]]; destruct (blank s) eqn:B; [|reflexivity].
      apply strip_nil_iff in B; contradiction.
  - split; [discriminate | intros [s [? _]]; discriminate].
Qed.

Lemma nonempty_field_str (d : dict) k : nonempty_field d k -> str_or_absent d k.
Proof. intros [s [G _]] v G'; rewrite G in G'; injection G' as <-; reflexivity. Qed.

Lemma empty_fieldb_spec (d : dict) k :
  empty_fieldb d k = true <-> empty_field d k.
Proof.
  unfold empty_fieldb, empty_field.
  destruct (Dict.get d k) as [v|].
  - destruct v; try (split; [discriminate | intros [s' [[=] _]]]).
    rewrite <- strip_nil_iff; split; [eauto | intros [s' [[= <-] E]]; exact E].
  - split; [discriminate | intros [s [? _]]; discriminate].
Qed.

Lemma empty_missing_on_keys (d : dict) k :
  In k (Dict.keys d) -> missing_fieldb d k = empty_fieldb d k.
Proof.
  intros H; apply get_keys in H; destruct H as [v G].
  unfold missing_fieldb, empty_fieldb; rewrite G; reflexivity.
Qed.

(** On a record whose required fields are strings (or absent) the first
    comprehension does not raise, and the function is this case analysis. *)
Lemma validate_course_required_str (data : dict) :
  (forall f, In f required_fields -> str_or_absent data f) ->
  validate_course data =
    let empty_fields := filter (missing_fieldb data) required_fields in
    if truthy_list empty_fields then
      Ok (VBool false, error_message empty_fields)
    else
      warning_fields <- filterM (field_is_empty data) (Dict.keys data) ;;
      if truthy_list warning_fields then
        Ok (VStr (str "warning"), warning_message warning_fields)
      else
        Ok (VBool true, str "Validation successful").
Proof.
  intros H; unfold validate_course.
  rewrite (filterM_pure (field_is_empty data) (missing_fieldb data)); [reflexivity|].
  intros f Hf; apply field_is_empty_str, H, Hf.
Qed.

Lemma validate_course_all_str (data : dict) :
  all_str data ->
  validate_course data =
    let empty_fields := filter (missing_fieldb data) required_fields in
    if truthy_list empty_fields then
      Ok (VBool false, error_message empty_fields)
    else
      let warning_fields := filter (empty_fieldb data) (Dict.keys data) in
      if truthy_list warning_fields then
        Ok (VStr (str "warning"), warning_message warning_fields)
      else
        Ok (VBool true, str "Validation successful").
Proof.
  intros H; rewrite validate_course_required_str
    by (intros; apply all_str_or_absent, H).
  cbv zeta; destruct (truthy_list _); [reflexivity|].
  rewrite (filterM_pure (field_is_empty data) (missing_fieldb data))
    by (intros; apply field_is_empty_str, all_str_or_absent, H).
  simpl; rewrite (filter_ext_in _ _ _ (empty_missing_on_keys data)).
  reflexivity.
Qed.

Lemma required_nonempty_no_error (data : dict) :
  (forall f, In f required_fields -> nonempty_field data f) ->
  filter (missing_fieldb data) required_fields = [].
Proof.
  intros H; apply filter_nil_iff; intros f Hf.
  apply missing_fieldb_false; [apply nonempty_field_str|]; auto.
Qed.

(** ** Validator *)

Lemma required_fields_NoDup : NoDup required_fields.
Proof. repeat constructor; simpl; intuition discriminate. Qed.

Lemma nonempty_not_empty (d : dict) k : nonempty_field d k -> ~ empty_field d k.
Proof.
  intros [s [G N]] [s' [G' E]]; rewrite G in G'; injection G' as <-; contradiction.
Qed.

(** C1. On a record of strings whose required fields [code], [name] and
    [instructor] are all non-empty after trimming, [validate_course]
    returns [True] (success) if and only if no other submitted field is
    empty or whitespace-only after trimming. *)
Theorem validate_success_iff (data : dict) :
  all_str data ->
  (forall f, In f required_fields -> nonempty_field data f) ->
  (exists msg, validate_course data = Ok (VBool true, msg)) <->
  (forall k, ~ In k required_fields -> ~ empty_field data k).
Proof.
  intros Hs Hr.
  rewrite (validate_course_all_str data Hs); cbv zeta.
  rewrite (required_nonempty_no_error data Hr); simpl truthy_list; cbv iota.
  destruct (filter (empty_fieldb data) (Dict.keys data)) as [|k0 w] eqn:W; simpl.
  - split; [intros _ | eauto].
    intros k _ He.
    assert (Hk : In k (Dict.keys data))
      by (destruct He as [s [G _]]; apply get_keys; eauto).
    apply empty_fieldb_spec in He.
    rewrite (proj1 (filter_nil_iff _ _) W k Hk) in He; discriminate.
  - split; [intros [msg [=]]|].
    intros H; exfalso.
    assert (Hk0 : In k0 (filter (empty_fieldb data) (Dict.keys data)))
      by (rewrite W; left; reflexivity).
    apply filter_In in Hk0; destruct Hk0 as [_ He].
    apply empty_fieldb_spec in He.
    apply (H k0); [|exact He].
    intros Hin; exact (nonempty_not_empty data k0 (Hr k0 Hin) He).
Qed.

Lemma validate_success_iff_witness :
  (exists msg, validate_course Ex.cs101 = Ok (VBool true, msg)) <->
  (forall k, ~ In k required_fields -> ~ empty_field Ex.cs101 k).
Proof.
  apply (validate_success_iff Ex.cs101).
  - repeat constructor.
  - intros f [<-|[<-|[<-|[]]]]; eexists;
      (split; [reflexivity | vm_compute; discriminate]).
Defined.

(** C2 (as amended). On a record whose required fields are strings or
    absent and of which at least one required field is missing (absent,
    empty or whitespace-only), [validate_course] returns [False] (error)
    and its message lists exactly the missing required fields, each once,
    spelled as in [required_fields]: no change of case is applied. *)
Theorem validate_error_lists_missing (data : dict) :
  (forall f, In f required_fields -> str_or_absent data f) ->
  (exists f, In f required_fields /\ missing_field data f) ->
  let fields := filter (missing_fieldb data) required_fields in
  (forall f, In f fields <-> In f required_fields /\ missing_field data f) /\
  NoDup fields /\
  validate_course data = Ok (VBool false, error_message fields).
Proof.
  intros Hs [f0 [Hf0 Hm0]] fields.
  assert (Hin : forall f, In f fields <-> In f required_fields /\ missing_field data f).
  { intros f; unfold fields; rewrite filter_In; split; intros [Hf Hm]; split; auto;
      apply (missing_fieldb_spec data f (Hs f Hf)); exact Hm. }
  split; [exact Hin|]; split.
  - apply NoDup_filter, required_fields_NoDup.
  - rewrite (validate_course_required_str data Hs); cbv zeta; fold fields.
    destruct fields as [|f fs]; [|reflexivity].
    exfalso; apply (proj2 (Hin f0)); auto.
Qed.

Lemma validate_error_lists_missing_witness :
  let fields := filter (missing_fieldb Ex.no_code) required_fields in
  (forall f, In f fields <-> In f required_fields /\ missing_field Ex.no_code f) /\
  NoDup fields /\
  validate_course Ex.no_code = Ok (VBool false, error_message fields).
Proof.
  apply (validate_error_lists_missing Ex.no_code).
  - intros f [<-|[<-|[<-|[]]]] v; vm_compute; intros [= <-]; reflexivity.
  - exists (str "code"); split; [left; reflexivity|].
    right; exists (str ""); split; reflexivity.
Defined.

(** C2 (as the specification states it) has the listed names
    "case-normalized for display".  That is what [add_course] does, with
    [capitalize], in its own check; [validate_course] does not: for
    [{code: "", name: "Algo", instructor: "Dr. X"}] its message ends in
    [code], not in [Code]. *)
Lemma validate_error_not_capitalized :
  validate_course Ex.no_code
    = Ok (VBool false, str "Error: Missing required fields - code") /\
  validate_course Ex.no_code
    <> Ok (VBool false,
           error_message
             (map capitalize (filter (missing_fieldb Ex.no_code) required_fields))).
Proof. split; [reflexivity | vm_compute; discriminate]. Qed.

(** C8. The warning scan is driven by the fields of the submitted record:
    when the required fields are non-empty, the fields [validate_course]
    warns about are exactly the fields the record holds with an empty or
    whitespace-only text, in the record's order, whatever their names; the
    outcome is the warning listing them, or success when there is none. *)
Theorem warning_scan_is_field_driven (data : dict) :
  all_str data ->
  (forall f, In f required_fields -> nonempty_field data f) ->
  let fields := filter (empty_fieldb data) (Dict.keys data) in
  (forall k, In k fields <-> empty_field data k) /\
  (Dict.wf data -> NoDup fields) /\
  validate_course data =
    Ok (if truthy_list fields
        then (VStr (str "warning"), warning_message fields)
        else (VBool true, str "Validation successful")).
Proof.
  intros Hs Hr fields; split; [|split].
  - intros k; unfold fields; rewrite filter_In, empty_fieldb_spec.
    split; [tauto|].
    intros He; split; [|exact He].
    destruct He as [s [G _]]; apply get_keys; eauto.
  - intros Hwf; apply NoDup_filter, Hwf.
  - rewrite (validate_course_all_str data Hs); cbv zeta.
    rewrite (required_nonempty_no_error data Hr); simpl truthy_list; cbv iota.
    fold fields; destruct (truthy_list fields); reflexivity.
Qed.

Lemma warning_scan_is_field_driven_witness :
  let fields := filter (empty_fieldb Ex.blank_room_capacity)
                       (Dict.keys Ex.blank_room_capacity) in
  (forall k, In k fields <-> empty_field Ex.blank_room_capacity k) /\
  (Dict.wf Ex.blank_room_capacity -> NoDup fields) /\
  validate_course Ex.blank_room_capacity =
    Ok (if truthy_list fields
        then (VStr (str "warning"), warning_message fields)
        else (VBool true, str "Validation successful")).
Proof.
  apply (warning_scan_is_field_driven Ex.blank_room_capacity).
  - repeat constructor.
  - intros f [<-|[<-|[<-|[]]]]; eexists;
      (split; [reflexivity | vm_compute; discriminate]).
Defined.

(** A field outside the form's nine fields is reported like any other. *)
Example warning_names_unknown_field :
  validate_course Ex.blank_room_capacity
    = Ok (VStr (str "warning"), str "Warning: Fields room_capacity are empty").
Proof. reflexivity. Qed.

Lemma non_str_not_str_or_absent (d : dict) k :
  non_str_field d k -> str_or_absent d k -> False.
Proof. intros [v [G N]] H; rewrite (H v G) in N; discriminate. Qed.

Lemma filterM_ok_no_raise (data : dict) (l : list pystr) r :
  filterM (field_is_empty data) l = Ok r ->
  forall k, In k l -> str_or_absent data k.
Proof.
  intros E k Hk v G.
  destruct (is_str v) eqn:S; [reflexivity|exfalso].
  assert (R : field_is_empty data k = Raise AttributeError)
    by (apply field_is_empty_raises; split; [exists v; auto | reflexivity]).
  destruct (filterM_raise_in _ l k _ Hk R) as [e' E']; congruence.
Qed.

(** C9 (as amended). [validate_course] raises exactly when a required
    field holds a non-string, or when the three required fields are
    non-empty strings and some field of the record holds a non-string; the
    exception is then [AttributeError].  (When a required field is missing,
    the function returns its error before it looks at the other fields.)
    On a record whose fields are all strings it never raises. *)
Theorem validate_raises_iff (data : dict) :
  ((exists e, validate_course data = Raise e) <->
   (exists f, In f required_fields /\ non_str_field data f) \/
   ((forall f, In f required_fields -> nonempty_field data f) /\
    exists k, non_str_field data k)) /\
  (forall e, validate_course data = Raise e -> e = AttributeError) /\
  (all_str data -> exists out, validate_course data = Ok out).
Proof.
  split; [|split].
  - unfold validate_course.
    destruct (filterM (field_is_empty data) required_fields) as [e1|e] eqn:E1;
      simpl.
    + pose proof (filterM_ok_no_raise data _ e1 E1) as Hreq.
      assert (F : filter (missing_fieldb data) required_fields = e1).
      { rewrite (filterM_pure _ (missing_fieldb data)) in E1
          by (intros; apply field_is_empty_str; auto).
        congruence. }
      destruct e1 as [|f0 r]; simpl.
      * assert (Hne : forall f, In f required_fields -> nonempty_field data f).
        { intros f Hf; apply missing_fieldb_false; [auto|].
          exact (proj1 (filter_nil_iff _ _) F f Hf). }
        destruct (filterM (field_is_empty data) (Dict.keys data)) as [w|e] eqn:E2;
          simpl.
        -- split.
           ++ destruct (truthy_list w); intros [e H]; discriminate H.
           ++ intros [[f [Hf Hn]]|[_ [k Hn]]]; exfalso.
              ** exact (non_str_not_str_or_absent data f Hn (Hreq f Hf)).
              ** apply (non_str_not_str_or_absent data k Hn).
                 apply (filterM_ok_no_raise data _ w E2).
                 destruct Hn as [v [G _]]; apply get_keys; eauto.
        -- split; [intros _; right | eauto].
           split; [exact Hne|].
           apply filterM_raises in E2; destruct E2 as [k [_ R]].
           apply field_is_empty_raises in R; exists k; tauto.
      * split; [intros [e [=]]|].
        intros [[f [Hf Hn]]|[Hne _]]; exfalso.
        -- exact (non_str_not_str_or_absent data f Hn (Hreq f Hf)).
        -- rewrite (required_nonempty_no_error data Hne) in F; discriminate.
    + split; [intros _; left | eauto].
      apply filterM_raises in E1; destruct E1 as [f [Hf R]].
      apply field_is_empty_raises in R; exists f; tauto.
  - intros e; unfold validate_course.
    destruct (filterM (field_is_empty data) required_fields) as [e1|e'] eqn:E1;
      simpl.
    + destruct (truthy_list e1); [discriminate|].
      destruct (filterM (field_is_empty data) (Dict.keys data)) as [w|e'] eqn:E2;
        simpl.
      * destruct (truthy_list w); discriminate.
      * intros [= ->]; apply filterM_raises in E2; destruct E2 as [k [_ R]].
        apply field_is_empty_raises in R; tauto.
    + intros [= ->]; apply filterM_raises in E1; destruct E1 as [k [_ R]].
      apply field_is_empty_raises in R; tauto.
  - intros Hs; rewrite (validate_course_all_str data Hs); cbv zeta.
    destruct (truthy_list _); [eauto|].
    destruct (truthy_list _); eauto.
Qed.

Lemma validate_raises_iff_witness :
  exists out, validate_course Ex.cs101 = Ok out.
Proof.
  apply (proj2 (proj2 (validate_raises_iff Ex.cs101))); repeat constructor.
Defined.

(** C9 (as the specification states it) has every non-string field make
    the call raise.
    [{code: "", name: "Algo", instructor: "Dr. X", semester: None}] holds
    [None], and [validate_course] returns its error for [code] without
    raising: the second comprehension, the only one to reach [semester],
    is not evaluated. *)
Lemma validate_non_string_without_raise :
  non_str_field Ex.no_code_null_semester (str "semester") /\
  validate_course Ex.no_code_null_semester
    = Ok (VBool false, str "Error: Missing required fields - code") /\
  ~ (forall data, (exists k, non_str_field data k) ->
                  exists e, validate_course data = Raise e).
Proof.
  assert (N : non_str_field Ex.no_code_null_semester (str "semester"))
    by (exists VNone; split; reflexivity).
  split; [exact N|]; split; [reflexivity|].
  intros H; destruct (H Ex.no_code_null_semester) as [e E]; [eauto|].
  discriminate E.
Qed.

(** ** Record store *)

Lemma load_courses_keeps_file (fs : filesystem) : snd (load_courses fs) = fs.
Proof.
  unfold load_courses, io_bind, path_exists, read_json, lift, io_ret.
  destruct fs as [[content|] n]; simpl; [|reflexivity].
  destruct (json_load content) as [v|e]; simpl; [|reflexivity].
  destruct (py_len v); reflexivity.
Qed.

Lemma load_courses_written (l : list pyval) (n : nat) :
  catalog (mkFs (Some (json_dump (VList l))) n) l.
Proof. reflexivity. Qed.

Lemma save_courses_spec (data : pyval) (fs : filesystem) (cs : list pyval) :
  catalog fs cs ->
  save_courses data fs
    = (Ok tt, mkFs (Some (json_dump (VList (cs ++ [data])))) (S (writes fs))).
Proof.
  intros H; unfold save_courses, io_bind; rewrite H; reflexivity.
Qed.

Lemma save_courses_completes (data : pyval) (fs fs' : filesystem) :
  save_courses data fs = (Ok tt, fs') -> exists cs, catalog fs cs.
Proof.
  unfold save_courses, io_bind, catalog.
  pose proof (load_courses_keeps_file fs) as K.
  destruct (load_courses fs) as [[v|e] fs1]; simpl in K; subst fs1;
    [|discriminate].
  destruct v; simpl; try discriminate; eauto.
Qed.

Lemma has_code_key_not_lacking (c : pyval) :
  has_code_key c -> lacks_code_key c -> False.
Proof. intros [d [v [-> G]]] [d' [[= <-] G']]; congruence. Qed.

Lemma code_is_spec (code : pystr) (c : pyval) :
  has_code_key c -> code_is code c = Ok (has_code code c).
Proof. intros [d [v [-> G]]]; unfold code_is; simpl; rewrite G; reflexivity. Qed.

Lemma code_is_not_spec (code : pystr) (c : pyval) :
  has_code_key c -> code_is_not code c = Ok (other_code code c).
Proof.
  intros [d [v [-> G]]]; unfold code_is_not, other_code; simpl; rewrite G.
  reflexivity.
Qed.

Lemma has_code_truthy (code : pystr) (c : pyval) :
  has_code code c = true -> truthy c = true.
Proof.
  destruct c as [| | | | |d]; simpl; try discriminate.
  destruct d; [discriminate | reflexivity].
Qed.

(** The generator stops at the first record with the code. *)
Lemma next_or_none_spec (code : pystr) (cs : list pyval) :
  Forall has_code_key cs ->
  (Exists (fun c => has_code code c = true) cs /\
   exists c, next_or_none (code_is code) cs = Ok c /\ truthy c = true) \/
  (Forall (fun c => has_code code c = false) cs /\
   next_or_none (code_is code) cs = Ok VNone).
Proof.
  induction 1 as [|c cs Hc _ IH]; simpl; [right; auto|].
  rewrite (code_is_spec code c Hc); simpl.
  destruct (has_code code c) eqn:E.
  - left; split; [left; exact E|].
    exists c; split; [reflexivity | exact (has_code_truthy code c E)].
  - destruct IH as [[Hex Hn]|[Hall Hn]]; [left|right]; split; auto.
Qed.

Lemma delete_course_by_code_spec (code : pystr) (fs : filesystem) (cs : list pyval) :
  catalog fs cs -> Forall has_code_key cs ->
  (Exists (fun c => has_code code c = true) cs /\
   delete_course_by_code code fs
     = (Ok true, mkFs (Some (json_dump (VList (filter (other_code code) cs))))
                      (S (writes fs)))) \/
  (Forall (fun c => has_code code c = false) cs /\
   delete_course_by_code code fs = (Ok false, fs)).
Proof.
  intros H Hk; unfold delete_course_by_code, io_bind; rewrite H; simpl.
  destruct (next_or_none_spec code cs Hk) as [[Hex [c [-> T]]]|[Hall ->]];
    simpl; [left|right; auto].
  split; [exact Hex|]; rewrite T.
  rewrite (filterM_pure _ (other_code code))
    by (intros x Hx; apply code_is_not_spec;
        rewrite Forall_forall in Hk; auto).
  reflexivity.
Qed.

Lemma filter_other_code (code : pystr) (cs : list pyval) :
  Forall (fun c => has_code code c = false) (filter (other_code code) cs).
Proof.
  apply Forall_forall; intros c Hc; apply filter_In in Hc.
  unfold other_code in Hc; destruct Hc as [_ Hc].
  destruct (has_code code c); [discriminate | reflexivity].
Qed.

Lemma filter_has_code_key (q : pyval -> bool) (cs : list pyval) :
  Forall has_code_key cs -> Forall has_code_key (filter q cs).
Proof.
  rewrite !Forall_forall; intros H c Hc; apply filter_In in Hc; apply H, Hc.
Qed.

Lemma absent_not_present (code : pystr) (cs : list pyval) :
  Forall (fun c => has_code code c = false) cs ->
  Exists (fun c => has_code code c = true) cs -> False.
Proof.
  rewrite Forall_forall, Exists_exists; intros H [c [Hc E]].
  rewrite (H c Hc) in E; discriminate.
Qed.

(** C3 (as amended). [load_courses] returns the empty list, without
    raising, when the catalog file is absent, and when it holds an empty
    JSON array.  When the file exists with zero bytes, [json.load] raises
    [JSONDecodeError] and [load_courses] lets it through.  In no case is
    the file written. *)
Theorem load_courses_absent_or_empty (n : nat) :
  load_courses (mkFs None n) = (Ok (VList []), mkFs None n) /\
  load_courses (mkFs (Some (Json (VList []))) n)
    = (Ok (VList []), mkFs (Some (Json (VList []))) n) /\
  load_courses (mkFs (Some EmptyFile) n)
    = (Raise JSONDecodeError, mkFs (Some EmptyFile) n).
Proof. repeat split. Qed.

(** C3 (as the specification states it) has the empty list for a file
    that exists and is empty; the call raises there. *)
Lemma load_courses_empty_file_raises :
  load_courses Ex.empty_file = (Raise JSONDecodeError, Ex.empty_file) /\
  ~ (forall fs, course_file fs = None \/ course_file fs = Some EmptyFile ->
                fst (load_courses fs) = Ok (VList [])).
Proof.
  split; [reflexivity|].
  intros H; specialize (H Ex.empty_file (or_intror eq_refl)); discriminate H.
Qed.

(** C4. Whenever [save_courses r] completes, the catalog loaded afterwards
    has [r] as its last element and is one longer than the catalog loaded
    before; and it completes on every state whose catalog loads as a
    list, the new catalog being the old one followed by [r]. *)
Theorem append_then_load (r : pyval) (fs : filesystem) :
  (forall before, catalog fs before ->
     exists fs', save_courses r fs = (Ok tt, fs') /\
                 catalog fs' (before ++ [r])) /\
  (forall fs', save_courses r fs = (Ok tt, fs') ->
     exists before after,
       catalog fs before /\ catalog fs' after /\
       last after VNone = r /\
       List.length after = S (List.length before)).
Proof.
  split.
  - intros before H; eexists; split; [apply save_courses_spec, H|].
    apply load_courses_written.
  - intros fs' S; destruct (save_courses_completes r fs fs' S) as [before H].
    rewrite (save_courses_spec r fs before H) in S; injection S as <-.
    exists before, (before ++ [r]); repeat split.
    + exact H.
    + apply last_last.
    + rewrite length_app; simpl; lia.
Qed.

Lemma append_then_load_witness :
  exists before after,
    catalog Ex.two_courses before /\
    catalog (mkFs (Some (Json (VList [VDict Ex.cs101; VDict Ex.cs102;
                                      VDict Ex.empty_semester]))) 1) after /\
    last after VNone = VDict Ex.empty_semester /\
    List.length after = S (List.length before).
Proof.
  apply (proj2 (append_then_load (VDict Ex.empty_semester) Ex.two_courses)).
  reflexivity.
Defined.

(** C5. On a catalog of records that have a code, appending a record and
    then deleting by that record's code returns [True], and the catalog
    left is the former catalog without any record of that code: the new
    record and every older record with the same code are gone. *)
Theorem append_then_delete (r : dict) (code : pystr) (fs : filesystem)
    (before : list pyval) :
  catalog fs before ->
  Forall has_code_key before ->
  Dict.get r (str "code") = Some (VStr code) ->
  exists fs1 fs2 after,
    save_courses (VDict r) fs = (Ok tt, fs1) /\
    delete_course_by_code code fs1 = (Ok true, fs2) /\
    catalog fs2 after /\
    after = filter (other_code code) before /\
    Forall (fun c => has_code code c = false) after.
Proof.
  intros H Hk Hr.
  assert (Hcode : has_code code (VDict r) = true)
    by (simpl; rewrite Hr; apply pystr_eqb_refl).
  assert (Hk' : Forall has_code_key (before ++ [VDict r])).
  { apply Forall_app; split; [exact Hk|].
    constructor; [exists r, (VStr code); auto | constructor]. }
  pose proof (load_courses_written (before ++ [VDict r]) (S (writes fs))) as H1.
  destruct (delete_course_by_code_spec code _ _ H1 Hk') as [[_ D]|[Habs _]].
  - eexists; eexists; exists (filter (other_code code) before).
    split; [apply save_courses_spec, H|]; split; [exact D|].
    split; [|split; [reflexivity | apply filter_other_code]].
    rewrite filter_app; simpl; unfold other_code at 2; rewrite Hcode; simpl.
    rewrite app_nil_r; apply load_courses_written.
  - exfalso; apply Forall_app in Habs; destruct Habs as [_ Habs].
    inversion Habs; congruence.
Qed.

Lemma append_then_delete_witness :
  exists fs1 fs2 after,
    save_courses (VDict Ex.empty_semester) Ex.two_courses = (Ok tt, fs1) /\
    delete_course_by_code (str "CS101") fs1 = (Ok true, fs2) /\
    catalog fs2 after /\
    after = filter (other_code (str "CS101")) [VDict Ex.cs101; VDict Ex.cs102] /\
    Forall (fun c => has_code (str "CS101") c = false) after.
Proof.
  apply (append_then_delete Ex.empty_semester (str "CS101") Ex.two_courses
           [VDict Ex.cs101; VDict Ex.cs102]).
  - reflexivity.
  - repeat constructor; eexists; eexists; (split; reflexivity).
  - reflexivity.
Defined.

(** C6. On a catalog of records that have a code: deleting a code no
    record has returns [False] and leaves the file as it was, not written;
    so deleting twice a code some record has returns [True], then
    [False]. *)
Theorem delete_absent_code (code : pystr) (fs : filesystem) (cs : list pyval) :
  catalog fs cs ->
  Forall has_code_key cs ->
  (Forall (fun c => has_code code c = false) cs ->
     delete_course_by_code code fs = (Ok false, fs)) /\
  (Exists (fun c => has_code code c = true) cs ->
     exists fs1, delete_course_by_code code fs = (Ok true, fs1) /\
                 delete_course_by_code code fs1 = (Ok false, fs1)).
Proof.
  intros H Hk; split.
  - intros Habs.
    destruct (delete_course_by_code_spec code fs cs H Hk) as [[Hex _]|[_ D]];
      [|exact D].
    exfalso; exact (absent_not_present code cs Habs Hex).
  - intros Hex.
    destruct (delete_course_by_code_spec code fs cs H Hk) as [[_ D]|[Habs _]];
      [|exfalso; exact (absent_not_present code cs Habs Hex)].
    eexists; split; [exact D|].
    destruct (delete_course_by_code_spec code _ _
                (load_courses_written (filter (other_code code) cs) (S (writes fs)))
                (filter_has_code_key (other_code code) cs Hk))
      as [[Hex' _]|[_ D']]; [|exact D'].
    exfalso; exact (absent_not_present code _ (filter_other_code code cs) Hex').
Qed.

Lemma delete_absent_code_witness :
  (Forall (fun c => has_code (str "CS102") c = false)
          [VDict Ex.cs101; VDict Ex.cs102] ->
     delete_course_by_code (str "CS102") Ex.two_courses
       = (Ok false, Ex.two_courses)) /\
  (Exists (fun c => has_code (str "CS102") c = true)
          [VDict Ex.cs101; VDict Ex.cs102] ->
     exists fs1,
       delete_course_by_code (str "CS102") Ex.two_courses = (Ok true, fs1) /\
       delete_course_by_code (str "CS102") fs1 = (Ok false, fs1)).
Proof.
  apply (delete_absent_code (str "CS102") Ex.two_courses
           [VDict Ex.cs101; VDict Ex.cs102]).
  - reflexivity.
  - repeat constructor; eexists; eexists; (split; reflexivity).
Defined.

Example delete_twice :
  exists fs1,
    delete_course_by_code (str "CS102") Ex.two_courses = (Ok true, fs1) /\
    delete_course_by_code (str "CS102") fs1 = (Ok false, fs1) /\
    delete_course_by_code (str "CS999") Ex.absent = (Ok false, Ex.absent).
Proof. eexists; repeat split. Qed.

Lemma dict_code_key_cases (c : pyval) :
  is_dict c -> has_code_key c \/ lacks_code_key c.
Proof.
  intros [d ->]; destruct (Dict.get d (str "code")) as [v|] eqn:G.
  - left; exists d, v; auto.
  - right; exists d; auto.
Qed.

Lemma code_is_lacking (code : pystr) (c : pyval) :
  lacks_code_key c -> code_is code c = Raise KeyError.
Proof. intros [d [-> G]]; unfold code_is; simpl; rewrite G; reflexivity. Qed.

Lemma code_is_not_lacking (code : pystr) (c : pyval) :
  lacks_code_key c -> code_is_not code c = Raise KeyError.
Proof. intros [d [-> G]]; unfold code_is_not; simpl; rewrite G; reflexivity. Qed.

(** The list comprehension visits every record, so one record without the
    key is enough for it to raise. *)
Lemma filterM_code_is_not_lacking (code : pystr) (cs : list pyval) :
  Forall is_dict cs -> Exists lacks_code_key cs ->
  filterM (code_is_not code) cs = Raise KeyError.
Proof.
  induction 1 as [|c cs Hc _ IH]; intros Hex; [inversion Hex|]; simpl.
  destruct (dict_code_key_cases c Hc) as [Hk|Hl].
  - rewrite (code_is_not_spec code c Hk); simpl.
    inversion Hex as [? ? Hl|? ? Hex']; subst;
      [exfalso; exact (has_code_key_not_lacking c Hk Hl)|].
    rewrite (IH Hex'); reflexivity.
  - rewrite (code_is_not_lacking code c Hl); reflexivity.
Qed.

(** The generator either meets a record without the key first and raises,
    or stops at a match before it. *)
Lemma next_or_none_lacking (code : pystr) (cs : list pyval) :
  Forall is_dict cs -> Exists lacks_code_key cs ->
  next_or_none (code_is code) cs = Raise KeyError \/
  exists c, next_or_none (code_is code) cs = Ok c /\ truthy c = true.
Proof.
  induction 1 as [|c cs Hc _ IH]; intros Hex; [inversion Hex|]; simpl.
  destruct (dict_code_key_cases c Hc) as [Hk|Hl].
  - rewrite (code_is_spec code c Hk); simpl.
    destruct (has_code code c) eqn:E.
    + right; exists c; split; [reflexivity | exact (has_code_truthy code c E)].
    + inversion Hex as [? ? Hl|? ? Hex']; subst;
        [exfalso; exact (has_code_key_not_lacking c Hk Hl) | exact (IH Hex')].
  - left; rewrite (code_is_lacking code c Hl); reflexivity.
Qed.

(** C10. On a catalog that loads as a list of JSON objects:
    if some stored object lacks the ['code'] key, [delete_course_by_code]
    raises [KeyError] (and writes nothing); if every stored object has the
    key, it returns a boolean. *)
Theorem delete_requires_code_key (code : pystr) (fs : filesystem)
    (cs : list pyval) :
  catalog fs cs ->
  Forall is_dict cs ->
  (Exists lacks_code_key cs ->
     delete_course_by_code code fs = (Raise KeyError, fs)) /\
  (Forall has_code_key cs ->
     exists (b : bool) fs', delete_course_by_code code fs = (Ok b, fs')).
Proof.
  intros H Hd; split.
  - intros Hex; unfold delete_course_by_code, io_bind; rewrite H; simpl.
    destruct (next_or_none_lacking code cs Hd Hex) as [->|[c [-> T]]]; simpl;
      [reflexivity|].
    rewrite T, (filterM_code_is_not_lacking code cs Hd Hex); reflexivity.
  - intros Hk.
    destruct (delete_course_by_code_spec code fs cs H Hk) as [[_ D]|[_ D]];
      rewrite D; eauto.
Qed.

Lemma delete_requires_code_key_witness :
  (Exists lacks_code_key [VDict Ex.cs101; VDict Ex.codeless] ->
     delete_course_by_code (str "CS101") Ex.with_codeless
       = (Raise KeyError, Ex.with_codeless)) /\
  (Forall has_code_key [VDict Ex.cs101; VDict Ex.codeless] ->
     exists (b : bool) fs',
       delete_course_by_code (str "CS101") Ex.with_codeless = (Ok b, fs')).
Proof.
  apply (delete_requires_code_key (str "CS101") Ex.with_codeless
           [VDict Ex.cs101; VDict Ex.codeless]).
  - reflexivity.
  - repeat constructor; eexists; reflexivity.
Defined.

(** The match comes first in the file, the object without the key second:
    the generator stops at the match, and it is the rebuilding of the list
    that raises. *)
Example delete_raises_after_match :
  delete_course_by_code (str "CS101") Ex.with_codeless
    = (Raise KeyError, Ex.with_codeless).
Proof. reflexivity. Qed.

(** ** add_course *)

Lemma mapM_form_shape (f : form) (l : list pystr) (course : dict) :
  mapM (fun k => v <- form_get f k ;; Ok (k, VStr v)) l = Ok course ->
  Dict.keys course = l /\ all_str course.
Proof.
  revert course; induction l as [|k l IH]; simpl; intros course.
  - intros [= <-]; split; [reflexivity | constructor].
  - destruct (form_get f k) as [v|e]; simpl; [|discriminate].
    destruct (mapM _ l) as [rest|e]; simpl; [|discriminate].
    intros [= <-]; destruct (IH rest eq_refl) as [K S].
    split; [simpl; rewrite K; reflexivity | constructor; [reflexivity | exact S]].
Qed.

Lemma course_of_form_shape (f : form) (course : dict) :
  course_of_form f = Ok course ->
  Dict.keys course = course_fields /\ all_str course.
Proof. apply mapM_form_shape. Qed.

Lemma required_in_course_fields (k : pystr) :
  In k required_fields -> In k course_fields.
Proof. simpl; intuition. Qed.

(** On the record built from the form, the handler's check and the first
    comprehension of [validate_course] select the same fields. *)
Lemma add_course_check (f : form) (course : dict) :
  course_of_form f = Ok course ->
  filterM (form_field_is_empty course) required_fields
    = Ok (filter (missing_fieldb course) required_fields).
Proof.
  intros Hc; destruct (course_of_form_shape f course Hc) as [K S].
  apply filterM_pure; intros k Hk.
  rewrite <- (field_is_empty_str course k (all_str_or_absent course k S)).
  assert (Hin : In k (Dict.keys course))
    by (rewrite K; apply required_in_course_fields, Hk).
  apply get_keys in Hin; destruct Hin as [v G].
  unfold form_field_is_empty, field_is_empty, Dict.get_default; rewrite G.
  reflexivity.
Qed.

Lemma truthy_list_map {A B} (g : A -> B) (l : list A) :
  truthy_list (map g l) = truthy_list l.
Proof. destruct l; reflexivity. Qed.

(** C7. In [add_course], a record that [validate_course] answers with an
    error is not persisted: the form is rendered again and the catalog file
    is left as it was.  A record that it answers with a warning is
    persisted: on a catalog that loads as a list the handler redirects to
    the catalog page, and the catalog is the former one followed by the
    record. *)
Theorem add_course_persists_unless_error (f : form) (st : app_state)
    (course : dict) :
  course_of_form f = Ok course ->
  (forall msg, validate_course course = Ok (VBool false, msg) ->
     exists st',
       add_course POST f st = (Ok (RenderAddCourse (Some course)), st') /\
       files st' = files st) /\
  (forall msg before,
     validate_course course = Ok (VStr (str "warning"), msg) ->
     catalog (files st) before ->
     exists st',
       add_course POST f st = (Ok RedirectCatalog, st') /\
       catalog (files st') (before ++ [VDict course])).
Proof.
  intros Hc; destruct (course_of_form_shape f course Hc) as [_ S].
  pose proof (validate_course_all_str course S) as V; cbv zeta in V.
  unfold add_course; rewrite Hc, (add_course_check f course Hc); cbv zeta.
  rewrite truthy_list_map.
  destruct (truthy_list (filter (missing_fieldb course) required_fields)).
  - split.
    + intros _ _; eexists; split; reflexivity.
    + intros msg before Hw; rewrite V in Hw; discriminate.
  - split.
    + intros msg He; exfalso; rewrite V in He.
      destruct (truthy_list _); discriminate.
    + intros msg before Hw Hcat; rewrite Hw; simpl.
      rewrite (save_courses_spec (VDict course) (files st) before Hcat).
      eexists; split; [reflexivity|]; simpl.
      apply load_courses_written.
Qed.

Lemma add_course_persists_unless_error_witness :
  (forall msg,
     validate_course (Ex.filled_course "CS101" "") = Ok (VBool false, msg) ->
     exists st',
       add_course POST (Ex.filled_form "CS101" "") Ex.fresh_app
         = (Ok (RenderAddCourse (Some (Ex.filled_course "CS101" ""))), st') /\
       files st' = files Ex.fresh_app) /\
  (forall msg before,
     validate_course (Ex.filled_course "CS101" "")
       = Ok (VStr (str "warning"), msg) ->
     catalog (files Ex.fresh_app) before ->
     exists st',
       add_course POST (Ex.filled_form "CS101" "") Ex.fresh_app
         = (Ok RedirectCatalog, st') /\
       catalog (files st') (before ++ [VDict (Ex.filled_course "CS101" "")])).
Proof.
  apply (add_course_persists_unless_error
           (Ex.filled_form "CS101" "") Ex.fresh_app
           (Ex.filled_course "CS101" "")).
  reflexivity.
Defined.

(** The two scenarios of the specification, run. *)
Example add_course_warning_scenario :
  validate_course (Ex.filled_course "CS101" "")
    = Ok (VStr (str "warning"), str "Warning: Fields semester are empty") /\
  exists st',
    add_course POST (Ex.filled_form "CS101" "") Ex.fresh_app
      = (Ok RedirectCatalog, st') /\
    catalog (files st') [VDict (Ex.filled_course "CS101" "")] /\
    flashed st' = [(str "Course added successfully", str "success")].
Proof. split; [reflexivity|]; eexists; repeat split. Qed.

Example add_course_error_scenario :
  validate_course (Ex.filled_course "" "Fall")
    = Ok (VBool false, str "Error: Missing required fields - code") /\
  exists st',
    add_course POST (Ex.filled_form "" "Fall") Ex.fresh_app
      = (Ok (RenderAddCourse (Some (Ex.filled_course "" "Fall"))), st') /\
    files st' = files Ex.fresh_app /\
    flashed st'
      = [(str "The following fields are required and cannot be empty: Code.",
          str "error")].
Proof. split; [reflexivity|]; eexists; repeat split. Qed.

(** * Further properties of the code *)

(** ** Record store: writes *)

Lemma load_courses_result (fs : filesystem) :
  load_courses fs = (fst (load_courses fs), fs).
Proof.
  rewrite <- (load_courses_keeps_file fs) at 3.
  destruct (load_courses fs); reflexivity.
Qed.


(** [delete_course_by_code] writes the file only when it returns [True],
    and then once; when it returns [False] or raises, the file is exactly
    as before.  This holds in every state of the file. *)
Theorem delete_writes_only_on_success (code : pystr) (fs : filesystem) :
  (fst (delete_course_by_code code fs) = Ok true /\
   writes (snd (delete_course_by_code code fs)) = S (writes fs)) \/
  (fst (delete_course_by_code code fs) <> Ok true /\
   snd (delete_course_by_code code fs) = fs).
Proof.
  unfold delete_course_by_code, io_bind, lift.
  rewrite (load_courses_result fs).
  destruct (fst (load_courses fs)) as [v|e]; simpl;
    [|right; split; [discriminate|reflexivity]].
  destruct (py_iter v) as [items|e]; simpl;
    [|right; split; [discriminate|reflexivity]].
  destruct (next_or_none (code_is code) items) as [c|e]; simpl;
    [|right; split; [discriminate|reflexivity]].
  destruct (truthy c); simpl; [|right; split; [discriminate|reflexivity]].
  destruct (filterM (code_is_not code) items) as [kept|e]; simpl;
    [left; split; reflexivity | right; split; [discriminate|reflexivity]].
Qed.

(** ** Record store: deleting by code *)


Lemma has_code_unique (a b : pystr) (c : pyval) :
  has_code a c = true -> has_code b c = true -> a = b.
Proof.
  destruct c as [| | | | |d]; simpl; try discriminate.
  destruct (Dict.get d (str "code")) as [v|]; [|discriminate].
  destruct v; simpl; try discriminate.
  intros Ha Hb; apply pystr_eqb_eq in Ha, Hb; congruence.
Qed.

Lemma other_code_of_has_code (a b : pystr) (c : pyval) :
  a <> b -> has_code b c = true -> other_code a c = true.
Proof.
  intros N Hb; unfold other_code; destruct (has_code a c) eqn:Ha; [|reflexivity].
  exfalso; exact (N (has_code_unique a b c Ha Hb)).
Qed.

Lemma existsb_has_code_false (code : pystr) (cs : list pyval) :
  existsb (has_code code) cs = false <->
  Forall (fun c => has_code code c = false) cs.
Proof.
  induction cs as [|c cs IH]; simpl; [split; auto|].
  rewrite orb_false_iff, IH; split.
  - intros [? ?]; constructor; assumption.
  - intros H; inversion H; auto.
Qed.

Lemma delete_course_by_code_run (code : pystr) (fs : filesystem)
    (cs : list pyval) :
  catalog fs cs -> Forall has_code_key cs ->
  delete_course_by_code code fs =
    if existsb (has_code code) cs
    then (Ok true,
          mkFs (Some (Json (VList (filter (other_code code) cs)))) (S (writes fs)))
    else (Ok false, fs).
Proof.
  intros H Hk.
  destruct (delete_course_by_code_spec code fs cs H Hk) as [[Hex D]|[Hall D]];
    rewrite D.
  - destruct (existsb (has_code code) cs) eqn:E; [reflexivity|].
    apply existsb_has_code_false in E.
    exfalso; exact (absent_not_present code cs E Hex).
  - apply existsb_has_code_false in Hall; rewrite Hall; reflexivity.
Qed.

Lemma existsb_filter_other (a b : pystr) (cs : list pyval) :
  a <> b ->
  existsb (has_code b) (filter (other_code a) cs) = existsb (has_code b) cs.
Proof.
  intros N; induction cs as [|c cs IH]; simpl; [reflexivity|].
  destruct (has_code b c) eqn:Hb.
  - rewrite (other_code_of_has_code a b c N Hb); simpl; rewrite Hb; reflexivity.
  - destruct (other_code a c); simpl; [rewrite Hb|]; exact IH.
Qed.

Lemma find_filter_other (a b : pystr) (cs : list pyval) :
  a <> b ->
  find (has_code b) (filter (other_code a) cs) = find (has_code b) cs.
Proof.
  intros N; induction cs as [|c cs IH]; simpl; [reflexivity|].
  destruct (has_code b c) eqn:Hb.
  - rewrite (other_code_of_has_code a b c N Hb); simpl; rewrite Hb; reflexivity.
  - destruct (other_code a c); simpl; [rewrite Hb|]; exact IH.
Qed.

Lemma find_filter_same (code : pystr) (cs : list pyval) :
  find (has_code code) (filter (other_code code) cs) = None.
Proof.
  induction cs as [|c cs IH]; simpl; [reflexivity|].
  unfold other_code at 1; destruct (has_code code c) eqn:E; simpl;
    [|rewrite E]; exact IH.
Qed.

Lemma find_existsb_false (code : pystr) (cs : list pyval) :
  existsb (has_code code) cs = false -> find (has_code code) cs = None.
Proof.
  induction cs as [|c cs IH]; simpl; [reflexivity|].
  destruct (has_code code c); simpl; [discriminate | exact IH].
Qed.

Lemma filter_filter_comm {A} (p q : A -> bool) (l : list A) :
  filter p (filter q l) = filter q (filter p l).
Proof.
  induction l as [|x l IH]; simpl; [reflexivity|].
  destruct (q x) eqn:Q, (p x) eqn:P; simpl; rewrite ?Q, ?P, IH; reflexivity.
Qed.

(** Deleting two codes leaves the same file whichever is deleted first:
    same catalog, same number of writes. *)
Theorem delete_commutes (a b : pystr) (fs : filesystem) (cs : list pyval) :
  catalog fs cs ->
  Forall has_code_key cs ->
  snd (delete_course_by_code b (snd (delete_course_by_code a fs)))
  = snd (delete_course_by_code a (snd (delete_course_by_code b fs))).
Proof.
  intros H Hk.
  destruct (PyStr.eqb a b) eqn:E;
    [apply pystr_eqb_eq in E; subst; reflexivity|].
  assert (Nab : a <> b) by (intros ->; rewrite pystr_eqb_refl in E; discriminate).
  assert (Nba : b <> a) by congruence.
  rewrite (delete_course_by_code_run a fs cs H Hk),
          (delete_course_by_code_run b fs cs H Hk).
  destruct (existsb (has_code a) cs) eqn:Ea,
           (existsb (has_code b) cs) eqn:Eb; simpl.
  - rewrite (delete_course_by_code_run b _ _
               (load_courses_written _ _) (filter_has_code_key _ cs Hk)),
            (delete_course_by_code_run a _ _
               (load_courses_written _ _) (filter_has_code_key _ cs Hk)).
    rewrite (existsb_filter_other a b cs Nab), (existsb_filter_other b a cs Nba),
            Ea, Eb; simpl.
    rewrite filter_filter_comm; reflexivity.
  - rewrite (delete_course_by_code_run b _ _
               (load_courses_written _ _) (filter_has_code_key _ cs Hk)),
            (delete_course_by_code_run a fs cs H Hk).
    rewrite (existsb_filter_other a b cs Nab), Ea, Eb; reflexivity.
  - rewrite (delete_course_by_code_run b fs cs H Hk),
            (delete_course_by_code_run a _ _
               (load_courses_written _ _) (filter_has_code_key _ cs Hk)).
    rewrite (existsb_filter_other b a cs Nba), Ea, Eb; reflexivity.
  - rewrite (delete_course_by_code_run b fs cs H Hk),
            (delete_course_by_code_run a fs cs H Hk), Ea, Eb; reflexivity.
Qed.

Lemma delete_commutes_witness :
  snd (delete_course_by_code (str "CS102")
         (snd (delete_course_by_code (str "CS101") ExSite.stored)))
  = snd (delete_course_by_code (str "CS101")
           (snd (delete_course_by_code (str "CS102") ExSite.stored))).
Proof.
  apply (delete_commutes (str "CS101") (str "CS102") ExSite.stored
           [ExSite.algo; ExSite.logic; ExSite.algo_again]).
  - reflexivity.
  - repeat constructor; eexists; eexists; (split; reflexivity).
Defined.

(** ** The details page *)

Lemma site_state_eta (st : site_state) :
  with_app (with_files (files (app st)) (app st)) st = st.
Proof. destruct st as [[fs s fl] n]; reflexivity. Qed.


Lemma next_or_none_find (code : pystr) (cs : list pyval) :
  Forall has_code_key cs ->
  next_or_none (code_is code) cs
  = Ok (match find (has_code code) cs with Some c => c | None => VNone end).
Proof.
  induction 1 as [|c cs Hc _ IH]; simpl; [reflexivity|].
  rewrite (code_is_spec code c Hc); simpl.
  destruct (has_code code c); [reflexivity | exact IH].
Qed.

Lemma course_details_run (code : pystr) (st : site_state) (cs : list pyval)
    (c : pyval) :
  catalog (files (app st)) cs ->
  next_or_none (code_is code) cs = Ok c ->
  course_details code st
  = (Ok (match c with
         | VNone => RedirectCourseCatalog
         | _ => RenderCourseDetails c
         end), st).
Proof.
  intros H Hn; unfold course_details, io_bind; rewrite H; simpl.
  unfold lift; rewrite Hn, site_state_eta; destruct c; reflexivity.
Qed.

Lemma course_details_find (code : pystr) (st : site_state) (cs : list pyval) :
  catalog (files (app st)) cs ->
  Forall has_code_key cs ->
  course_details code st
  = (Ok (match first_with_code code cs with
         | Some c => RenderCourseDetails c
         | None => RedirectCourseCatalog
         end), st).
Proof.
  intros H Hk.
  rewrite (course_details_run code st cs _ H (next_or_none_find code cs Hk)).
  unfold first_with_code.
  destruct (find (has_code code) cs) as [c|] eqn:F; [|reflexivity].
  apply find_some in F; destruct F as [_ F].
  destruct c; simpl in F; try discriminate; reflexivity.
Qed.



Lemma delete_course_files (code : pystr) (st : site_state) :
  files (app (snd (delete_course code st)))
  = snd (delete_course_by_code code (files (app st))).
Proof.
  unfold delete_course.
  destruct (delete_course_by_code code (files (app st))) as [[b|e] fs'];
    [destruct b|]; reflexivity.
Qed.

Lemma catalog_after_delete (code : pystr) (fs : filesystem) (cs : list pyval) :
  catalog fs cs -> Forall has_code_key cs ->
  exists cs',
    catalog (snd (delete_course_by_code code fs)) cs' /\
    Forall has_code_key cs' /\
    (forall b, first_with_code b cs'
               = if PyStr.eqb code b then None else first_with_code b cs).
Proof.
  intros H Hk; rewrite (delete_course_by_code_run code fs cs H Hk).
  assert (Hsame : forall b, PyStr.eqb code b = true -> code = b)
    by (intros b E; apply pystr_eqb_eq, E).
  assert (Hdiff : forall b, PyStr.eqb code b = false -> code <> b)
    by (intros b E ->; rewrite pystr_eqb_refl in E; discriminate).
  destruct (existsb (has_code code) cs) eqn:E; simpl.
  - exists (filter (other_code code) cs); split; [apply load_courses_written|].
    split; [apply filter_has_code_key, Hk|].
    intros b; unfold first_with_code; destruct (PyStr.eqb code b) eqn:Eb.
    + rewrite <- (Hsame b Eb); apply find_filter_same.
    + apply find_filter_other, Hdiff, Eb.
  - exists cs; split; [exact H|]; split; [exact Hk|].
    intros b; unfold first_with_code; destruct (PyStr.eqb code b) eqn:Eb;
      [|reflexivity].
    rewrite <- (Hsame b Eb); apply find_existsb_false, E.
Qed.



(** Deleting one code does not change what the details page of another code
    shows. *)
Theorem details_of_other_code_kept (a b : pystr) (st : site_state)
    (cs : list pyval) :
  catalog (files (app st)) cs ->
  Forall has_code_key cs ->
  a <> b ->
  fst (handle (CourseDetails b) (snd (handle (DeleteCourse a) st)))
  = fst (handle (CourseDetails b) st).
Proof.
  intros H Hk N; simpl.
  destruct (catalog_after_delete a _ cs H Hk) as [cs' [H' [Hk' F]]].
  rewrite <- delete_course_files in H'.
  rewrite (course_details_find b _ cs' H' Hk'), (course_details_find b st cs H Hk), F.
  destruct (PyStr.eqb a b) eqn:E; [|reflexivity].
  apply pystr_eqb_eq in E; contradiction.
Qed.

Lemma details_of_other_code_kept_witness :
  fst (handle (CourseDetails (str "CS102"))
         (snd (handle (DeleteCourse (str "CS101")) (ExSite.site_of ExSite.stored))))
  = fst (handle (CourseDetails (str "CS102")) (ExSite.site_of ExSite.stored)).
Proof.
  apply (details_of_other_code_kept (str "CS101") (str "CS102")
           (ExSite.site_of ExSite.stored)
           [ExSite.algo; ExSite.logic; ExSite.algo_again]).
  - reflexivity.
  - repeat constructor; eexists; eexists; (split; reflexivity).
  - vm_compute; discriminate.
Defined.

(** ** The delete route *)



(** ** The add route *)

Lemma add_course_valid_outcome (course : dict) :
  all_str course ->
  filter (missing_fieldb course) required_fields = [] ->
  exists valid msg,
    validate_course course = Ok (valid, msg) /\ truthy valid = true.
Proof.
  intros S E; rewrite (validate_course_all_str course S); cbv zeta.
  rewrite E; simpl truthy_list; cbv iota.
  destruct (truthy_list _); eexists; eexists; split; reflexivity.
Qed.

(** What a POST does once the form has its nine fields.  The branch for a
    falsy answer of [validate_course] is never taken: the handler's own
    check has returned before in every case where the answer would be
    [False]. *)
Lemma add_course_post (f : form) (st : app_state) (course : dict) :
  course_of_form f = Ok course ->
  add_course POST f st =
    let missing := filter (missing_fieldb course) required_fields in
    let s := sess st in
    if truthy_list missing then
      (Ok (RenderAddCourse (Some course)),
       {| files := files st;
          sess := {| missing_field_errors := S (missing_field_errors s);
                     validation_errors := validation_errors s;
                     database_errors := database_errors s;
                     added_courses_count := added_courses_count s |};
          flashed := flashed st ++
            [(str "The following fields are required and cannot be empty: "
              ++ join (str ", ") (map capitalize missing) ++ str ".",
              str "error")] |})
    else
      match save_courses (VDict course) (files st) with
      | (Ok _, fs') =>
          (Ok RedirectCatalog,
           {| files := fs';
              sess := {| missing_field_errors := missing_field_errors s;
                         validation_errors := validation_errors s;
                         database_errors := database_errors s;
                         added_courses_count := S (added_courses_count s) |};
              flashed := flashed st ++
                [(str "Course added successfully", str "success")] |})
      | (Raise _, fs') =>
          (Ok (RenderAddCourse (Some course)),
           {| files := fs';
              sess := {| missing_field_errors := missing_field_errors s;
                         validation_errors := validation_errors s;
                         database_errors := S (database_errors s);
                         added_courses_count := added_courses_count s |};
              flashed := flashed st ++
                [(str "Failed to save course", str "error")] |})
      end.
Proof.
  intros Hc; destruct (course_of_form_shape f course Hc) as [_ S].
  unfold add_course; rewrite Hc, (add_course_check f course Hc); cbv zeta.
  rewrite truthy_list_map.
  destruct (truthy_list (filter (missing_fieldb course) required_fields)) eqn:T;
    [reflexivity|].
  apply truthy_list_false in T.
  destruct (add_course_valid_outcome course S T) as [valid [msg [-> Tv]]].
  rewrite Tv; simpl negb; cbv iota.
  destruct (save_courses (VDict course) (files st)) as [[u|e] fs']; reflexivity.
Qed.

(** [add_course] never counts a validation error: whatever the method, the
    form and the state, the counter [validation_errors] of the session is
    left as it was. *)
Theorem add_course_never_counts_validation_error
    (method : http_method) (f : form) (st : app_state) :
  validation_errors (sess (snd (add_course method f st)))
  = validation_errors (sess st).
Proof.
  destruct method; [reflexivity|].
  destruct (course_of_form f) as [course|e] eqn:Hc.
  - rewrite (add_course_post f st course Hc); cbv zeta.
    destruct (truthy_list _); [reflexivity|].
    destruct (save_courses _ _) as [[u|e] fs']; reflexivity.
  - unfold add_course; rewrite Hc; reflexivity.
Qed.

Lemma form_get_raises (f : form) (k : pystr) (e : exn) :
  form_get f k = Raise e -> e = BadRequestKeyError.
Proof.
  induction f as [|[k' v] f IH]; simpl; [congruence|].
  destruct (PyStr.eqb k' k); [discriminate | exact IH].
Qed.

Lemma mapM_raises {A B} (g : A -> result B) (l : list A) (e : exn) :
  mapM g l = Raise e -> exists x, In x l /\ g x = Raise e.
Proof.
  induction l as [|x l IH]; simpl; [discriminate|].
  destruct (g x) as [y|e'] eqn:G; simpl.
  - destruct (mapM g l) as [r|e']; simpl; [discriminate|].
    intros [= ->]; destruct (IH eq_refl) as [z [Hz Hg]]; eauto.
  - intros [= ->]; eauto.
Qed.


Lemma course_of_form_raises (f : form) (e : exn) :
  course_of_form f = Raise e ->
  e = BadRequestKeyError /\
  exists k, In k course_fields /\ form_get f k = Raise BadRequestKeyError.
Proof.
  intros H; apply mapM_raises in H; destruct H as [k [Hk G]].
  destruct (form_get f k) as [v|e'] eqn:F; simpl in G; [discriminate|].
  injection G as ->.
  pose proof (form_get_raises f k e F) as ->; eauto.
Qed.



(** When a required field of the form is blank, [add_course] renders the
    form again, flashes one error that names exactly the blank required
    fields, capitalized, counts one more missing-field error and leaves the
    file and the other counters alone. *)
Theorem add_course_blank_required_field (f : form) (st : app_state)
    (course : dict) :
  course_of_form f = Ok course ->
  let missing := filter (missing_fieldb course) required_fields in
  missing <> [] ->
  (forall k, In k missing <-> In k required_fields /\ missing_field course k) /\
  exists st',
    add_course POST f st = (Ok (RenderAddCourse (Some course)), st') /\
    files st' = files st /\
    flashed st'
      = flashed st ++
        [(str "The following fields are required and cannot be empty: "
          ++ join (str ", ") (map capitalize missing) ++ str ".",
          str "error")] /\
    missing_field_errors (sess st') = S (missing_field_errors (sess st)) /\
    database_errors (sess st') = database_errors (sess st) /\
    added_courses_count (sess st') = added_courses_count (sess st).
Proof.
  intros Hc missing Hm; split.
  - destruct (course_of_form_shape f course Hc) as [_ S].
    intros k; unfold missing; rewrite filter_In.
    split; intros [Hk M]; split; auto;
      apply (missing_fieldb_spec course k (all_str_or_absent course k S)); exact M.
  - rewrite (add_course_post f st course Hc); cbv zeta; fold missing.
    destruct missing; [contradiction|].
    eexists; split; [reflexivity|]; simpl; auto.
Qed.

Lemma add_course_blank_required_field_witness :
  let course := Ex.filled_course "" "Fall" in
  let missing := filter (missing_fieldb course) required_fields in
  (forall k, In k missing <-> In k required_fields /\ missing_field course k) /\
  exists st',
    add_course POST (Ex.filled_form "" "Fall") Ex.fresh_app
      = (Ok (RenderAddCourse (Some course)), st') /\
    files st' = files Ex.fresh_app /\
    flashed st'
      = flashed Ex.fresh_app ++
        [(str "The following fields are required and cannot be empty: "
          ++ join (str ", ") (map capitalize missing) ++ str ".",
          str "error")] /\
    missing_field_errors (sess st') = S (missing_field_errors (sess Ex.fresh_app)) /\
    database_errors (sess st') = database_errors (sess Ex.fresh_app) /\
    added_courses_count (sess st') = added_courses_count (sess Ex.fresh_app).
Proof.
  apply (add_course_blank_required_field (Ex.filled_form "" "Fall") Ex.fresh_app
           (Ex.filled_course "" "Fall")).
  - reflexivity.
  - vm_compute; discriminate.
Defined.

Lemma save_courses_raise_keeps_file (data : pyval) (fs fs' : filesystem) (e : exn) :
  save_courses data fs = (Raise e, fs') -> fs' = fs.
Proof.
  unfold save_courses, io_bind; rewrite (load_courses_result fs).
  destruct (fst (load_courses fs)) as [v|e']; [|congruence].
  destruct v; cbv [lift py_append write_json]; congruence.
Qed.

Lemma required_nonempty_filter (course : dict) :
  (forall k, In k required_fields -> nonempty_field course k) ->
  truthy_list (filter (missing_fieldb course) required_fields) = false.
Proof. intros H; rewrite (required_nonempty_no_error course H); reflexivity. Qed.

(** When the required fields are filled in but the catalog file cannot be
    loaded as a list (corrupt, empty, or not an array), [add_course] does
    not raise: it renders the form again, flashes "Failed to save course",
    counts one more database error, and the file is exactly as before. *)
Theorem add_course_store_failure (f : form) (st : app_state) (course : dict) :
  course_of_form f = Ok course ->
  (forall k, In k required_fields -> nonempty_field course k) ->
  (forall cs, ~ catalog (files st) cs) ->
  exists st',
    add_course POST f st = (Ok (RenderAddCourse (Some course)), st') /\
    files st' = files st /\
    flashed st' = flashed st ++ [(str "Failed to save course", str "error")] /\
    database_errors (sess st') = S (database_errors (sess st)) /\
    missing_field_errors (sess st') = missing_field_errors (sess st) /\
    added_courses_count (sess st') = added_courses_count (sess st).
Proof.
  intros Hc Hr Hbad.
  rewrite (add_course_post f st course Hc); cbv zeta.
  rewrite (required_nonempty_filter course Hr).
  destruct (save_courses (VDict course) (files st)) as [[[]|e] fs'] eqn:S.
  - destruct (save_courses_completes _ _ _ S) as [cs H].
    exfalso; exact (Hbad cs H).
  - apply save_courses_raise_keeps_file in S; subst fs'.
    eexists; split; [reflexivity|]; simpl; auto.
Qed.

Lemma add_course_store_failure_witness :
  exists st',
    add_course POST (Ex.filled_form "CS101" "Fall")
               (mkApp Ex.empty_file Ex.fresh_session [])
      = (Ok (RenderAddCourse (Some (Ex.filled_course "CS101" "Fall"))), st') /\
    files st' = Ex.empty_file /\
    flashed st' = [] ++ [(str "Failed to save course", str "error")] /\
    database_errors (sess st') = 1 /\
    missing_field_errors (sess st') = 0 /\
    added_courses_count (sess st') = 0.
Proof.
  apply (add_course_store_failure (Ex.filled_form "CS101" "Fall")
           (mkApp Ex.empty_file Ex.fresh_session [])
           (Ex.filled_course "CS101" "Fall")).
  - reflexivity.
  - intros k [<-|[<-|[<-|[]]]]; eexists;
      (split; [reflexivity | vm_compute; discriminate]).
  - intros cs H; discriminate H.
Defined.

(** When the required fields are filled in and the catalog loads as a
    list, [add_course] redirects to the catalog: the file is written once,
    the catalog is the former one followed by the record, "Course added
    successfully" is flashed and only the counter of added courses moves.
    Blank optional fields make no difference. *)
Theorem add_course_success (f : form) (st : app_state) (course : dict)
    (before : list pyval) :
  course_of_form f = Ok course ->
  (forall k, In k required_fields -> nonempty_field course k) ->
  catalog (files st) before ->
  exists st',
    add_course POST f st = (Ok RedirectCatalog, st') /\
    catalog (files st') (before ++ [VDict course]) /\
    writes (files st') = S (writes (files st)) /\
    flashed st' = flashed st ++ [(str "Course added successfully", str "success")] /\
    added_courses_count (sess st') = S (added_courses_count (sess st)) /\
    missing_field_errors (sess st') = missing_field_errors (sess st) /\
    database_errors (sess st') = database_errors (sess st).
Proof.
  intros Hc Hr H.
  rewrite (add_course_post f st course Hc); cbv zeta.
  rewrite (required_nonempty_filter course Hr),
          (save_courses_spec (VDict course) (files st) before H).
  eexists; split; [reflexivity|]; simpl; repeat split.
Qed.

Lemma add_course_success_witness :
  exists st',
    add_course POST (Ex.filled_form "CS103" "")
               (mkApp ExSite.stored Ex.fresh_session [])
      = (Ok RedirectCatalog, st') /\
    catalog (files st')
      ([ExSite.algo; ExSite.logic; ExSite.algo_again]
       ++ [VDict (Ex.filled_course "CS103" "")]) /\
    writes (files st') = S (writes ExSite.stored) /\
    flashed st' = [] ++ [(str "Course added successfully", str "success")] /\
    added_courses_count (sess st') = 1 /\
    missing_field_errors (sess st') = 0 /\
    database_errors (sess st') = 0.
Proof.
  apply (add_course_success (Ex.filled_form "CS103" "")
           (mkApp ExSite.stored Ex.fresh_session [])
           (Ex.filled_course "CS103" "")
           [ExSite.algo; ExSite.logic; ExSite.algo_again]).
  - reflexivity.
  - intros k [<-|[<-|[<-|[]]]]; eexists;
      (split; [reflexivity | vm_compute; discriminate]).
  - reflexivity.
Defined.

(** [add_course] only ever appends: whatever the method, the form and the
    outcome, the records the catalog held are still there, in the same
    order, followed by at most one new record, the one built from the
    form. *)
Theorem add_course_appends_only (method : http_method) (f : form)
    (st : app_state) (before : list pyval) :
  catalog (files st) before ->
  files (snd (add_course method f st)) = files st \/
  exists course,
    course_of_form f = Ok course /\
    catalog (files (snd (add_course method f st))) (before ++ [VDict course]).
Proof.
  intros H; destruct method; [left; reflexivity|].
  destruct (course_of_form f) as [course|e] eqn:Hc.
  - rewrite (add_course_post f st course Hc); cbv zeta.
    destruct (truthy_list _); [left; reflexivity|].
    rewrite (save_courses_spec (VDict course) (files st) before H).
    right; exists course; split; [reflexivity | apply load_courses_written].
  - left; unfold add_course; rewrite Hc; reflexivity.
Qed.

Lemma add_course_appends_only_witness :
  files (snd (add_course POST (Ex.filled_form "CS101" "Fall") Ex.fresh_app))
    = files Ex.fresh_app \/
  exists course,
    course_of_form (Ex.filled_form "CS101" "Fall") = Ok course /\
    catalog (files (snd (add_course POST (Ex.filled_form "CS101" "Fall")
                           Ex.fresh_app)))
            ([] ++ [VDict course]).
Proof.
  apply (add_course_appends_only POST (Ex.filled_form "CS101" "Fall")
           Ex.fresh_app []).
  reflexivity.
Defined.

(** ** Requests in sequence *)

Lemma handle_course_catalog (method : http_method) (st : site_state) :
  handle (CourseCatalog method) st = course_catalog st.
Proof. reflexivity. Qed.

Lemma handle_course_details (code : pystr) (st : site_state) :
  handle (CourseDetails code) st = course_details code st.
Proof. reflexivity. Qed.

Lemma handle_delete_course (code : pystr) (st : site_state) :
  handle (DeleteCourse code) st = delete_course code st.
Proof. reflexivity. Qed.

Lemma handle_add_course_files (method : http_method) (f : form) (st : site_state) :
  files (app (snd (handle (AddCourse method f) st)))
  = files (snd (add_course method f (app st))).
Proof.
  simpl; destruct (add_course method f (app st)) as [[r|e] a]; reflexivity.
Qed.

Lemma add_course_success_files (f : form) (a : app_state) (course : dict)
    (before : list pyval) :
  course_of_form f = Ok course ->
  (forall k, In k required_fields -> nonempty_field course k) ->
  catalog (files a) before ->
  files (snd (add_course POST f a))
  = mkFs (Some (Json (VList (before ++ [VDict course])))) (S (writes (files a))).
Proof.
  intros Hc Hr H; rewrite (add_course_post f a course Hc); cbv zeta.
  rewrite (required_nonempty_filter course Hr),
          (save_courses_spec (VDict course) (files a) before H).
  reflexivity.
Qed.

Lemma course_catalog_run (st : site_state) (cs : list pyval) :
  catalog (files (app st)) cs ->
  course_catalog st
  = (Ok (RenderCourseCatalog (VList cs)),
     {| app := app st;
        catalog_page_access_count := S (catalog_page_access_count st) |}).
Proof.
  intros H; unfold course_catalog; simpl; rewrite H.
  destruct st as [[fs s fl] n]; reflexivity.
Qed.

(** A record added with success is what the catalog page lists last, right
    after the records it listed before. *)
Theorem catalog_page_after_add (method : http_method) (f : form)
    (st : site_state) (course : dict) (before : list pyval) :
  course_of_form f = Ok course ->
  (forall k, In k required_fields -> nonempty_field course k) ->
  catalog (files (app st)) before ->
  fst (handle (CourseCatalog method) st)
    = Ok (RenderCourseCatalog (VList before)) /\
  fst (handle (CourseCatalog method) (snd (handle (AddCourse POST f) st)))
    = Ok (RenderCourseCatalog (VList (before ++ [VDict course]))).
Proof.
  intros Hc Hr H; split.
  - simpl; rewrite (course_catalog_run st before H); reflexivity.
  - assert (H' : catalog (files (app (snd (handle (AddCourse POST f) st))))
                         (before ++ [VDict course])).
    { rewrite handle_add_course_files,
              (add_course_success_files f (app st) course before Hc Hr H).
      apply load_courses_written. }
    rewrite handle_course_catalog, (course_catalog_run _ _ H'); reflexivity.
Qed.

Lemma catalog_page_after_add_witness :
  fst (handle (CourseCatalog GET) (ExSite.site_of ExSite.stored))
    = Ok (RenderCourseCatalog
            (VList [ExSite.algo; ExSite.logic; ExSite.algo_again])) /\
  fst (handle (CourseCatalog GET)
         (snd (handle (AddCourse POST (Ex.filled_form "CS103" ""))
                      (ExSite.site_of ExSite.stored))))
    = Ok (RenderCourseCatalog
            (VList ([ExSite.algo; ExSite.logic; ExSite.algo_again]
                    ++ [VDict (Ex.filled_course "CS103" "")]))).
Proof.
  apply (catalog_page_after_add GET (Ex.filled_form "CS103" "")
           (ExSite.site_of ExSite.stored) (Ex.filled_course "CS103" "")
           [ExSite.algo; ExSite.logic; ExSite.algo_again]).
  - reflexivity.
  - intros k [<-|[<-|[<-|[]]]]; eexists;
      (split; [reflexivity | vm_compute; discriminate]).
  - reflexivity.
Defined.








(** ** The store under any sequence of requests *)

Lemma valid_course_has_code_key (c : pyval) : valid_course c -> has_code_key c.
Proof.
  intros [d [-> [K _]]].
  assert (Hin : In (str "code") (Dict.keys d)) by (rewrite K; left; reflexivity).
  apply get_keys in Hin; destruct Hin as [v G]; exists d, v; auto.
Qed.

Lemma valid_courses_have_code_key (cs : list pyval) :
  Forall valid_course cs -> Forall has_code_key cs.
Proof.
  intros H; eapply Forall_impl; [|exact H]; apply valid_course_has_code_key.
Qed.

Lemma store_ok_catalog (fs : filesystem) :
  store_ok fs -> exists cs, catalog fs cs /\ Forall valid_course cs.
Proof.
  destruct fs as [c n]; intros [E|[cs [E V]]]; simpl in E; subst c.
  - exists []; split; [reflexivity | constructor].
  - exists cs; split; [reflexivity | exact V].
Qed.

Lemma course_of_form_valid (f : form) (course : dict) :
  course_of_form f = Ok course ->
  truthy_list (filter (missing_fieldb course) required_fields) = false ->
  valid_course (VDict course).
Proof.
  intros Hc T; destruct (course_of_form_shape f course Hc) as [K S].
  exists course; repeat split; auto.
  intros k Hk; apply truthy_list_false in T.
  apply missing_fieldb_false; [apply all_str_or_absent, S|].
  exact (proj1 (filter_nil_iff _ _) T k Hk).
Qed.

Lemma course_details_files (code : pystr) (st : site_state) :
  files (app (snd (course_details code st))) = files (app st).
Proof.
  unfold course_details, io_bind, lift.
  rewrite (load_courses_result (files (app st))).
  destruct (fst (load_courses (files (app st)))) as [v|e]; [|reflexivity].
  destruct (py_iter v) as [items|e]; [|reflexivity].
  destruct (next_or_none (code_is code) items) as [c|e]; [|reflexivity].
  destruct c; reflexivity.
Qed.

Lemma course_catalog_files (st : site_state) :
  files (app (snd (course_catalog st))) = files (app st).
Proof.
  unfold course_catalog; simpl.
  rewrite (load_courses_result (files (app st))).
  destruct (fst (load_courses (files (app st)))); reflexivity.
Qed.

Lemma handle_store_ok (rq : request) (st : site_state) :
  store_ok (files (app st)) -> store_ok (files (app (snd (handle rq st)))).
Proof.
  intros Hok; destruct rq as [|method f|method|code|code].
  - exact Hok.
  - rewrite handle_add_course_files.
    destruct method; [exact Hok|].
    destruct (course_of_form f) as [course|e] eqn:Hc;
      [|unfold add_course; rewrite Hc; exact Hok].
    rewrite (add_course_post f (app st) course Hc); cbv zeta.
    destruct (truthy_list _) eqn:T; [exact Hok|].
    destruct (store_ok_catalog _ Hok) as [cs [H V]].
    rewrite (save_courses_spec (VDict course) _ cs H).
    right; exists (cs ++ [VDict course]); split; [reflexivity|].
    apply Forall_app; split; [exact V|].
    constructor; [exact (course_of_form_valid f course Hc T) | constructor].
  - rewrite handle_course_catalog, course_catalog_files; exact Hok.
  - rewrite handle_course_details, course_details_files; exact Hok.
  - rewrite handle_delete_course, delete_course_files.
    destruct (store_ok_catalog _ Hok) as [cs [H V]].
    rewrite (delete_course_by_code_run code _ cs H
               (valid_courses_have_code_key cs V)).
    destruct (existsb (has_code code) cs); [|exact Hok].
    right; eexists; split; [reflexivity|].
    rewrite Forall_forall in *; intros c Hc; apply filter_In in Hc; apply V, Hc.
Qed.

Lemma serve_store_ok (rqs : list request) (st : site_state) :
  store_ok (files (app st)) -> store_ok (files (app (serve rqs st))).
Proof.
  revert st; induction rqs as [|rq rqs IH]; intros st Hok; [exact Hok|].
  simpl; apply IH, handle_store_ok, Hok.
Qed.

(** The application never damages its own store.  From a state where the
    catalog file is absent or holds records written by [add_course], and
    after any sequence of requests whatever they are and however they end,
    the catalog still loads, as a list of records that each have the nine
    fields of the form, all strings, with [code], [name] and [instructor]
    not blank. *)
Theorem store_always_loads (rqs : list request) (st : site_state) :
  store_ok (files (app st)) ->
  exists cs,
    catalog (files (app (serve rqs st))) cs /\ Forall valid_course cs.
Proof. intros Hok; apply store_ok_catalog, serve_store_ok, Hok. Qed.

Lemma store_always_loads_witness :
  exists cs,
    catalog (files (app (serve [AddCourse POST (Ex.filled_form "CS101" "");
                                AddCourse POST (Ex.filled_form "" "Fall");
                                CourseCatalog GET;
                                DeleteCourse (str "CS999");
                                AddCourse POST ExSite.short_form;
                                CourseDetails (str "CS101")]
                               ExSite.fresh))) cs /\
    Forall valid_course cs.
Proof.
  apply (store_always_loads _ ExSite.fresh).
  left; reflexivity.
Defined.

(** From such a state, and after any sequence of requests, the only
    request that makes its handler raise is a POST to [add_course] whose
    form lacks one of the nine fields, and the exception is
    [BadRequestKeyError]: no page of the site fails with [KeyError],
    [TypeError], [AttributeError] or a JSON error. *)
Theorem only_incomplete_forms_raise (rqs : list request) (rq : request)
    (st : site_state) (e : exn) :
  store_ok (files (app st)) ->
  fst (handle rq (serve rqs st)) = Raise e ->
  e = BadRequestKeyError /\
  exists f k,
    rq = AddCourse POST f /\ In k course_fields /\
    form_get f k = Raise BadRequestKeyError.
Proof.
  intros Hok; apply (serve_store_ok rqs) in Hok.
  destruct (store_ok_catalog _ Hok) as [cs [H V]].
  pose proof (valid_courses_have_code_key cs V) as Hk.
  set (st' := serve rqs st) in *.
  destruct rq as [|method f|method|code|code].
  - discriminate.
  - simpl; destruct method; [discriminate|].
    destruct (course_of_form f) as [course|e'] eqn:Hc.
    + rewrite (add_course_post f (app st') course Hc); cbv zeta.
      destruct (truthy_list _); [discriminate|].
      destruct (save_courses _ _) as [[u|e''] fs']; discriminate.
    + unfold add_course; rewrite Hc; simpl; intros [= ->].
      destruct (course_of_form_raises f e Hc) as [-> [k [Hin F]]].
      split; [reflexivity|]; exists f, k; auto.
  - rewrite handle_course_catalog, (course_catalog_run st' cs H); discriminate.
  - rewrite handle_course_details, (course_details_find code st' cs H Hk).
    discriminate.
  - rewrite handle_delete_course; unfold delete_course.
    rewrite (delete_course_by_code_run code _ cs H Hk).
    destruct (existsb (has_code code) cs); discriminate.
Qed.

Lemma only_incomplete_forms_raise_witness :
  BadRequestKeyError = BadRequestKeyError /\
  exists f k,
    AddCourse POST ExSite.short_form = AddCourse POST f /\
    In k course_fields /\ form_get f k = Raise BadRequestKeyError.
Proof.
  apply (only_incomplete_forms_raise
           [AddCourse POST (Ex.filled_form "CS101" ""); DeleteCourse (str "CS101")]
           (AddCourse POST ExSite.short_form) ExSite.fresh BadRequestKeyError).
  - left; reflexivity.
  - reflexivity.
Defined.

(** Requests that only read never write: the index page, the add form
    fetched with GET, the catalog page and the details page leave the
    catalog file exactly as it was, in every state of the file and whether
    they answer or raise. *)
Theorem reading_requests_never_write (st : site_state) :
  files (app (snd (handle Index st))) = files (app st) /\
  (forall f, files (app (snd (handle (AddCourse GET f) st))) = files (app st)) /\
  (forall method,
     files (app (snd (handle (CourseCatalog method) st))) = files (app st)) /\
  (forall code,
     files (app (snd (handle (CourseDetails code) st))) = files (app st)).
Proof.
  split; [reflexivity|]; split; [reflexivity|]; split.
  - intros method; rewrite handle_course_catalog; apply course_catalog_files.
  - intros code; rewrite handle_course_details; apply course_details_files.
Qed.

(** Every POST of a complete form is answered with exactly one flashed
    message and counted exactly once: one of the counters of missing-field
    errors, database errors and added courses goes up by one. *)
Theorem add_course_one_flash_one_count (f : form) (st : app_state)
    (course : dict) :
  course_of_form f = Ok course ->
  let st' := snd (add_course POST f st) in
  List.length (flashed st') = S (List.length (flashed st)) /\
  missing_field_errors (sess st') + database_errors (sess st')
    + added_courses_count (sess st')
  = S (missing_field_errors (sess st) + database_errors (sess st)
       + added_courses_count (sess st)).
Proof.
  intros Hc; cbv zeta; rewrite (add_course_post f st course Hc); cbv zeta.
  destruct (truthy_list _);
    [|destruct (save_courses _ _) as [[u|e] fs']];
    simpl; rewrite length_app; simpl; split; lia.
Qed.

Lemma add_course_one_flash_one_count_witness :
  let st' := snd (add_course POST (Ex.filled_form "CS101" "") Ex.fresh_app) in
  List.length (flashed st') = S (List.length (flashed Ex.fresh_app)) /\
  missing_field_errors (sess st') + database_errors (sess st')
    + added_courses_count (sess st')
  = S (missing_field_errors (sess Ex.fresh_app)
       + database_errors (sess Ex.fresh_app)
       + added_courses_count (sess Ex.fresh_app)).
Proof.
  apply (add_course_one_flash_one_count (Ex.filled_form "CS101" "")
           Ex.fresh_app (Ex.filled_course "CS101" "")).
  reflexivity.
Defined.

(** ** The validator and the order of the fields *)

Lemma get_not_in_keys (d : dict) (k : pystr) :
  ~ In k (Dict.keys d) -> Dict.get d k = None.
Proof.
  intros N; destruct (Dict.get d k) as [v|] eqn:G; [|reflexivity].
  exfalso; apply N, get_keys; eauto.
Qed.

Lemma get_permutation (d d' : dict) :
  Permutation d d' -> Dict.wf d -> forall k, Dict.get d k = Dict.get d' k.
Proof.
  unfold Dict.wf, Dict.keys.
  induction 1 as [|[k0 v0] l l' P IH|[k1 v1] [k2 v2] l|l l' l'' P1 IH1 P2 IH2];
    intros W k.
  - reflexivity.
  - simpl in *; inversion W; subst.
    destruct (PyStr.eqb k0 k); [reflexivity | apply IH; assumption].
  - simpl in *; inversion W as [|? ? N1 W1]; subst.
    destruct (PyStr.eqb k1 k) eqn:E1, (PyStr.eqb k2 k) eqn:E2; try reflexivity.
    apply pystr_eqb_eq in E1, E2; subst.
    exfalso; apply N1; left; reflexivity.
  - rewrite IH1 by assumption; apply IH2.
    apply (Permutation_NoDup (Permutation_map fst P1)), W.
Qed.

Lemma truthy_filter_permutation {A} (p q : A -> bool) (l l' : list A) :
  Permutation l l' -> (forall x, p x = q x) ->
  truthy_list (filter p l) = truthy_list (filter q l').
Proof.
  intros P E.
  destruct (filter p l) as [|x r] eqn:F, (filter q l') as [|x' r'] eqn:F';
    try reflexivity; exfalso.
  - assert (Hx : In x' (filter q l')) by (rewrite F'; left; reflexivity).
    apply filter_In in Hx; destruct Hx as [Hin Hq].
    apply (Permutation_in _ (Permutation_sym P)) in Hin.
    rewrite <- E in Hq.
    rewrite (proj1 (filter_nil_iff p l) F x' Hin) in Hq; discriminate.
  - assert (Hx : In x (filter p l)) by (rewrite F; left; reflexivity).
    apply filter_In in Hx; destruct Hx as [Hin Hp].
    apply (Permutation_in _ P) in Hin.
    rewrite E in Hp.
    rewrite (proj1 (filter_nil_iff q l') F' x Hin) in Hp; discriminate.
Qed.

(** The outcome of [validate_course] does not depend on the order in which
    the record lists its fields: two records of strings with the same
    fields in a different order get the same status (error, warning or
    success), and the same message for an error or a success; only the
    warning message follows the order of the record. *)
Theorem validate_course_field_order (d d' : dict) :
  Dict.wf d ->
  all_str d ->
  Permutation d d' ->
  exists status msg msg',
    validate_course d = Ok (status, msg) /\
    validate_course d' = Ok (status, msg') /\
    (status <> VStr (str "warning") -> msg = msg').
Proof.
  intros W S P.
  assert (S' : all_str d') by (exact (Permutation_Forall P S)).
  pose proof (get_permutation d d' P W) as G.
  assert (M : forall k, missing_fieldb d k = missing_fieldb d' k)
    by (intros k; unfold missing_fieldb; rewrite G; reflexivity).
  assert (E : forall k, empty_fieldb d k = empty_fieldb d' k)
    by (intros k; unfold empty_fieldb; rewrite G; reflexivity).
  rewrite (validate_course_all_str d S), (validate_course_all_str d' S');
    cbv zeta.
  rewrite (filter_ext _ _ M required_fields).
  destruct (truthy_list (filter (missing_fieldb d') required_fields)).
  - do 3 eexists; repeat split; reflexivity.
  - rewrite (truthy_filter_permutation (empty_fieldb d) (empty_fieldb d')
               (Dict.keys d) (Dict.keys d') (Permutation_map fst P) E).
    destruct (truthy_list (filter (empty_fieldb d') (Dict.keys d'))).
    + do 3 eexists; split; [reflexivity|]; split; [reflexivity|].
      intros N; exfalso; apply N; reflexivity.
    + do 3 eexists; repeat split; reflexivity.
Qed.

Lemma validate_course_field_order_witness :
  exists status msg msg',
    validate_course Ex.blank_room_capacity = Ok (status, msg) /\
    validate_course (rev Ex.blank_room_capacity) = Ok (status, msg') /\
    (status <> VStr (str "warning") -> msg = msg').
Proof.
  apply (validate_course_field_order Ex.blank_room_capacity
           (rev Ex.blank_room_capacity)).
  - repeat constructor; simpl; intuition discriminate.
  - repeat constructor.
  - apply Permutation_rev.
Defined.
